(** * A DNS message codec: header, question and answer records

    Shallow embedding of the Go program (package main): the 12-byte header
    codec, the label-sequence codec shared by questions and answers, the
    resource-record codec and the reply built by the server loop.

    Conventions of the embedding.
    - Go's unsigned integers ([uint8], [uint16], [uint32]) are values of [Z];
      every operation that can leave the width is wrapped explicitly
      ([u8], [u16], [u32]).  [byte] is [uint8].
    - Go's [int] (64 bit) is used for lengths and indices only; they are
      bounded by the capacity of a slice plus a few hundred, so they are
      modelled by [nat] without wrap-around.
    - A Go string is a sequence of bytes: [string] (a list of 8-bit [ascii]).
    - A Go slice is a window on a backing array: the visible part (its
      length) and the part of the array behind it (up to its capacity).
    - A run-time panic is an outcome of its own, next to a normal return. *)

From Stdlib Require Import ZArith List String Ascii Bool Lia DecimalString.
From stdpp Require Import base list.

Local Open Scope string_scope.
Local Open Scope list_scope.
Local Open Scope Z_scope.

(** ** Fixed-width integers *)

Definition u8 (x : Z) : Z := x mod 2 ^ 8.
Definition u16 (x : Z) : Z := x mod 2 ^ 16.
Definition u32 (x : Z) : Z := x mod 2 ^ 32.

Definition is_u16 (x : Z) : Prop := 0 <= x < 2 ^ 16.

(** ** Strings and bytes *)

(** [[]byte(s)] and [append(b, s...)]: the bytes of a string. *)
Definition bytes_of_string (s : string) : list Z :=
  map (fun c => Z.of_N (N_of_ascii c)) (list_ascii_of_string s).

(** [string(b)]: the string made of the bytes of a slice. *)
Definition string_of_bytes (b : list Z) : string :=
  string_of_list_ascii (map (fun x => ascii_of_N (Z.to_N x)) b).

(** [len(s)] of a string, as an [int]. *)
Definition slen (s : string) : nat := String.length s.

(** [strings.Split(s, sep)] for a separator of one byte: the substrings
    between the separators; a string without separator gives [[s]], the
    empty string gives one empty substring. *)
Fixpoint Split (s : string) (sep : ascii) : list string :=
  match s with
  | EmptyString => [EmptyString]
  | String c rest =>
      if Ascii.eqb c sep then EmptyString :: Split rest sep
      else match Split rest sep with
           | hd :: tl => String c hd :: tl
           | [] => [String c EmptyString]
           end
  end.

(** [strconv.Itoa]: the decimal representation of an [int]. *)
Definition Itoa (n : Z) : string := NilZero.string_of_int (Z.to_int n).

(** The value of a run of decimal digits, most significant first; [None]
    at the first byte that is not a digit. *)
Fixpoint digits_value (s : string) (acc : Z) : option Z :=
  match s with
  | EmptyString => Some acc
  | String c rest =>
      let d := Z.of_N (N_of_ascii c) - 48 in
      if (0 <=? d) && (d <=? 9) then digits_value rest (acc * 10 + d)
      else None
  end.

(** [strconv.Atoi] on a 64-bit platform: an optional sign [+] or [-],
    then at least one decimal digit and nothing else; the value must fit
    an [int].  [None] stands for a non-nil error (syntax or range). *)
Definition Atoi (s : string) : option Z :=
  let '(neg, body) :=
    match s with
    | String "-" rest => (true, rest)
    | String "+" rest => (false, rest)
    | _ => (false, s)
    end in
  match body with
  | EmptyString => None
  | _ =>
      match digits_value body 0 with
      | None => None
      | Some n =>
          let v := if neg then - n else n in
          if (- 2 ^ 63 <=? v) && (v <=? 2 ^ 63 - 1) then Some v else None
      end
  end.

(** ** Outcomes: normal return, run-time panic *)

Inductive panic : Type :=
  | IndexOutOfRange          (* s[i] with i >= len(s) *)
  | SliceBoundsOutOfRange    (* s[lo:hi] outside 0 <= lo <= hi <= cap(s) *)
  | PanicMsg (msg : string). (* panic(msg) *)

Inductive result (A : Type) : Type :=
  | Ok (a : A)
  | Panic (p : panic)
  | OutOfFuel.

Arguments Ok {A} a.
Arguments Panic {A} p.
Arguments OutOfFuel {A}.

Definition bind {A B : Type} (m : result A) (k : A -> result B) : result B :=
  match m with
  | Ok a => k a
  | Panic p => Panic p
  | OutOfFuel => OutOfFuel
  end.

Notation "'do' x <- m ; k" := (bind m (fun x => k))
  (at level 10, x name, m at level 100, k at level 200,
   format "'[v' 'do'  x  <-  m ; '/' k ']'").

(** An [error] value; [nil] is [None]. *)
Inductive error : Type := Errorf (msg : string).

(** ** Slices *)

(** A slice of bytes: [vis] are the elements below [len], [spare] the
    elements of the backing array between [len] and [cap]. *)
Record slice : Type := mkSlice { vis : list Z; spare : list Z }.

Definition len (s : slice) : nat := length (vis s).
Definition cap (s : slice) : nat := length (vis s ++ spare s).

(** A slice whose capacity is its length. *)
Definition full (b : list Z) : slice := mkSlice b [].

(** [s[i]]. *)
Definition at_index (s : slice) (i : nat) : result Z :=
  match vis s !! i with
  | Some b => Ok b
  | None => Panic IndexOutOfRange
  end.

(** [s[lo:hi]]: needs [lo <= hi <= cap(s)]; the result can show elements
    that were behind [len(s)]. *)
Definition reslice (s : slice) (lo hi : nat) : result slice :=
  if (lo <=? hi)%nat && (hi <=? cap s)%nat then
    Ok (mkSlice (take (hi - lo) (drop lo (vis s ++ spare s)))
                (drop hi (vis s ++ spare s)))
  else Panic SliceBoundsOutOfRange.

(** [s[lo:]]: the upper bound is [len(s)], so it needs [lo <= len(s)]. *)
Definition reslice_from (s : slice) (lo : nat) : result slice :=
  reslice s lo (len s).

(** [binary.BigEndian.Uint16(b)]. *)
Definition Uint16 (b : slice) : result Z :=
  do _ <- at_index b 1;
  do b0 <- at_index b 0;
  do b1 <- at_index b 1;
  Ok (Z.lor b1 (u16 (Z.shiftl b0 8))).

(** [binary.BigEndian.Uint32(b)]. *)
Definition Uint32 (b : slice) : result Z :=
  do _ <- at_index b 3;
  do b0 <- at_index b 0;
  do b1 <- at_index b 1;
  do b2 <- at_index b 2;
  do b3 <- at_index b 3;
  Ok (Z.lor (Z.lor (Z.lor b3 (u32 (Z.shiftl b2 8))) (u32 (Z.shiftl b1 16)))
            (u32 (Z.shiftl b0 24))).

(** ** Header *)

Module Header.

Record t : Type := mk {
  ID : Z;       (* uint16 *)
  QR : Z;       (* uint8, 1 bit *)
  OPCODE : Z;   (* uint8, 4 bits *)
  AA : Z;       (* uint8, 1 bit *)
  TC : Z;       (* uint8, 1 bit *)
  RD : Z;       (* uint8, 1 bit *)
  RA : Z;       (* uint8, 1 bit *)
  Z_ : Z;       (* uint8, 3 bits; the field Z of the source *)
  RCODE : Z;    (* uint8, 4 bits *)
  QDCOUNT : Z;  (* uint16 *)
  ANCOUNT : Z;  (* uint16 *)
  NSCOUNT : Z;  (* uint16 *)
  ARCOUNT : Z   (* uint16 *)
}.

(** [Header{}]: every field zero. *)
Definition zero : t := mk 0 0 0 0 0 0 0 0 0 0 0 0 0.

(** Field assignments [header.F = v]. *)
Definition set_ID (v : Z) (h : t) : t :=
  mk v (QR h) (OPCODE h) (AA h) (TC h) (RD h) (RA h) (Z_ h) (RCODE h)
     (QDCOUNT h) (ANCOUNT h) (NSCOUNT h) (ARCOUNT h).
Definition set_QR (v : Z) (h : t) : t :=
  mk (ID h) v (OPCODE h) (AA h) (TC h) (RD h) (RA h) (Z_ h) (RCODE h)
     (QDCOUNT h) (ANCOUNT h) (NSCOUNT h) (ARCOUNT h).
Definition set_OPCODE (v : Z) (h : t) : t :=
  mk (ID h) (QR h) v (AA h) (TC h) (RD h) (RA h) (Z_ h) (RCODE h)
     (QDCOUNT h) (ANCOUNT h) (NSCOUNT h) (ARCOUNT h).
Definition set_AA (v : Z) (h : t) : t :=
  mk (ID h) (QR h) (OPCODE h) v (TC h) (RD h) (RA h) (Z_ h) (RCODE h)
     (QDCOUNT h) (ANCOUNT h) (NSCOUNT h) (ARCOUNT h).
Definition set_TC (v : Z) (h : t) : t :=
  mk (ID h) (QR h) (OPCODE h) (AA h) v (RD h) (RA h) (Z_ h) (RCODE h)
     (QDCOUNT h) (ANCOUNT h) (NSCOUNT h) (ARCOUNT h).
Definition set_RD (v : Z) (h : t) : t :=
  mk (ID h) (QR h) (OPCODE h) (AA h) (TC h) v (RA h) (Z_ h) (RCODE h)
     (QDCOUNT h) (ANCOUNT h) (NSCOUNT h) (ARCOUNT h).
Definition set_RA (v : Z) (h : t) : t :=
  mk (ID h) (QR h) (OPCODE h) (AA h) (TC h) (RD h) v (Z_ h) (RCODE h)
     (QDCOUNT h) (ANCOUNT h) (NSCOUNT h) (ARCOUNT h).
Definition set_Z (v : Z) (h : t) : t :=
  mk (ID h) (QR h) (OPCODE h) (AA h) (TC h) (RD h) (RA h) v (RCODE h)
     (QDCOUNT h) (ANCOUNT h) (NSCOUNT h) (ARCOUNT h).
Definition set_RCODE (v : Z) (h : t) : t :=
  mk (ID h) (QR h) (OPCODE h) (AA h) (TC h) (RD h) (RA h) (Z_ h) v
     (QDCOUNT h) (ANCOUNT h) (NSCOUNT h) (ARCOUNT h).
Definition set_QDCOUNT (v : Z) (h : t) : t :=
  mk (ID h) (QR h) (OPCODE h) (AA h) (TC h) (RD h) (RA h) (Z_ h) (RCODE h)
     v (ANCOUNT h) (NSCOUNT h) (ARCOUNT h).
Definition set_ANCOUNT (v : Z) (h : t) : t :=
  mk (ID h) (QR h) (OPCODE h) (AA h) (TC h) (RD h) (RA h) (Z_ h) (RCODE h)
     (QDCOUNT h) v (NSCOUNT h) (ARCOUNT h).
Definition set_NSCOUNT (v : Z) (h : t) : t :=
  mk (ID h) (QR h) (OPCODE h) (AA h) (TC h) (RD h) (RA h) (Z_ h) (RCODE h)
     (QDCOUNT h) (ANCOUNT h) v (ARCOUNT h).
Definition set_ARCOUNT (v : Z) (h : t) : t :=
  mk (ID h) (QR h) (OPCODE h) (AA h) (TC h) (RD h) (RA h) (Z_ h) (RCODE h)
     (QDCOUNT h) (ANCOUNT h) (NSCOUNT h) v.

(** Every field within its declared bit width. *)
Definition ok (h : t) : Prop :=
  is_u16 (ID h) /\
  0 <= QR h <= 1 /\ 0 <= OPCODE h <= 15 /\ 0 <= AA h <= 1 /\
  0 <= TC h <= 1 /\ 0 <= RD h <= 1 /\ 0 <= RA h <= 1 /\
  0 <= Z_ h <= 7 /\ 0 <= RCODE h <= 15 /\
  is_u16 (QDCOUNT h) /\ is_u16 (ANCOUNT h) /\
  is_u16 (NSCOUNT h) /\ is_u16 (ARCOUNT h).

(** [header[i] |= v] on a slice of [uint8]. *)
Definition or_at (i : nat) (v : Z) (b : list Z) : list Z :=
  alter (fun old => Z.lor old v) i b.

(** [Header.marshal]: a fresh slice of 12 zero bytes, filled by index.
    All the indices are constants below 12: no access is out of range. *)
Definition marshal (d : t) : list Z :=
  let header := replicate 12 0 in
  let header := <[0%nat := u8 (Z.shiftr (ID d) 8)]> header in
  let header := <[1%nat := u8 (Z.land (ID d) 255)]> header in
  let header := <[2%nat := u8 (Z.shiftl (QR d) 7)]> header in
  let header := or_at 2 (u8 (Z.shiftl (OPCODE d) 3)) header in
  let header := or_at 2 (u8 (Z.shiftl (AA d) 2)) header in
  let header := or_at 2 (u8 (Z.shiftl (TC d) 1)) header in
  let header := or_at 2 (RD d) header in
  let header := <[3%nat := u8 (Z.shiftl (RA d) 7)]> header in
  let header := or_at 3 (u8 (Z.shiftl (Z_ d) 4)) header in
  let header := or_at 3 (RCODE d) header in
  let header := <[4%nat := u8 (Z.shiftr (QDCOUNT d) 8)]> header in
  let header := <[5%nat := u8 (Z.land (QDCOUNT d) 255)]> header in
  let header := <[6%nat := u8 (Z.shiftr (ANCOUNT d) 8)]> header in
  let header := <[7%nat := u8 (Z.land (ANCOUNT d) 255)]> header in
  let header := <[8%nat := u8 (Z.shiftr (NSCOUNT d) 8)]> header in
  let header := <[9%nat := u8 (Z.land (NSCOUNT d) 255)]> header in
  let header := <[10%nat := u8 (Z.shiftr (ARCOUNT d) 8)]> header in
  let header := <[11%nat := u8 (Z.land (ARCOUNT d) 255)]> header in
  header.

End Header.

Definition header_size_error : error :=
  Errorf "Invalid header size, need to be at least 12 bytes".

(** [unmarshalHeader]: the statements of the source in their order.  The
    field [Z] is assigned twice, the second time with the low four bits of
    byte 3, and [RCODE] is never assigned. *)
Definition unmarshalHeader (data : slice)
  : result (Header.t * option error) :=
  if (len data <? 12)%nat then Ok (Header.zero, Some header_size_error)
  else
    let header := Header.zero in
    do s <- reslice data 0 2;
    do v <- Uint16 s;
    let header := Header.set_ID v header in
    do b <- at_index data 2;
    let header := Header.set_QR (Z.shiftr b 7) header in
    do b <- at_index data 2;
    let header := Header.set_OPCODE (Z.land (Z.shiftr b 3) 15) header in
    do b <- at_index data 2;
    let header := Header.set_AA (Z.land (Z.shiftr b 2) 1) header in
    do b <- at_index data 2;
    let header := Header.set_TC (Z.land (Z.shiftr b 1) 1) header in
    do b <- at_index data 2;
    let header := Header.set_RD (Z.land b 1) header in
    do b <- at_index data 3;
    let header := Header.set_RA (Z.shiftr b 7) header in
    do b <- at_index data 3;
    let header := Header.set_Z (Z.land (Z.shiftr b 4) 7) header in
    do b <- at_index data 3;
    let header := Header.set_Z (Z.land b 15) header in
    do s <- reslice data 4 6;
    do v <- Uint16 s;
    let header := Header.set_QDCOUNT v header in
    do s <- reslice data 6 8;
    do v <- Uint16 s;
    let header := Header.set_ANCOUNT v header in
    do s <- reslice data 8 10;
    do v <- Uint16 s;
    let header := Header.set_NSCOUNT v header in
    do s <- reslice data 10 12;
    do v <- Uint16 s;
    let header := Header.set_ARCOUNT v header in
    Ok (header, None).

(** ** Domain names *)

(** The loop that writes the labels of a name, the same in
    [Question.marshal] and [Answer.marshal]: one step appends a label to
    [response], and skips an empty one. *)
Definition marshal_label (response : list Z) (label : string) : list Z :=
  if (slen label =? 0)%nat then response
  else (response ++ [u8 (Z.of_nat (slen label))]) ++ bytes_of_string label.

Definition marshal_labels (domainName : string) (response : list Z)
  : list Z :=
  fold_left marshal_label (Split domainName ".") response.

(** The loop that reads the labels of a name, the same in
    [unmarshalQuestion] and [unmarshalAnswer]:
    [for len(data) > index && data[index] != 0 { ... }].
    It returns the index of the byte that ended the loop and the name.
    Every iteration moves [index] forward, so [len(data) + 1] iterations
    are enough; [fuel] bounds them. *)
Fixpoint name_loop (fuel : nat) (data : slice) (index : nat)
  (domainName : string) : result (nat * string) :=
  match fuel with
  | O => OutOfFuel
  | S fuel =>
      if (index <? len data)%nat then
        do b <- at_index data index;
        if b =? 0 then Ok (index, domainName)
        else
          let domainName :=
            if (index =? 0)%nat then domainName
            else (domainName ++ ".")%string in
          let length := Z.to_nat b in
          do label <- reslice data (index + 1) (index + length + 1);
          let domainName :=
            (domainName ++ string_of_bytes (vis label))%string in
          name_loop fuel data (index + length + 1) domainName
      else Ok (index, domainName)
  end.

(** ** Question *)

Module Question.

Record t : Type := mk {
  domainName : string;
  questionType : Z;   (* uint16 *)
  questionClass : Z   (* uint16 *)
}.

Definition marshal (question : t) : list Z :=
  let response := [] in
  let response := marshal_labels (domainName question) response in
  let response := response ++ [0] in
  let response := response ++ [u8 (Z.shiftr (questionType question) 8)] in
  let response := response ++ [u8 (Z.land (questionType question) 255)] in
  let response := response ++ [u8 (Z.shiftr (questionClass question) 8)] in
  let response := response ++ [u8 (Z.land (questionClass question) 255)] in
  response.

End Question.

Definition unmarshalQuestion (data : slice)
  : result (Question.t * nat * option error) :=
  let index := 0%nat in
  do r <- name_loop (S (len data)) data index "";
  let '(index, domainName) := r in
  let index := (index + 1)%nat in
  do s <- reslice data index (index + 2);
  do questionType <- Uint16 s;
  do s <- reslice data (index + 2) (index + 4);
  do questionClass <- Uint16 s;
  Ok (Question.mk domainName questionType questionClass,
      (index + 4)%nat, None).

(** ** Answer *)

Module Answer.

Record t : Type := mk {
  domainName : string;
  answerType : Z;    (* uint16 *)
  answerClass : Z;   (* uint16 *)
  TTL : Z;           (* uint32 *)
  RDLENGTH : Z;      (* uint16 *)
  data : string
}.

(** The loop over the segments of [data]: an empty segment is skipped,
    a segment [strconv.Atoi] rejects panics, and the number is
    converted with [byte(n)]. *)
Fixpoint marshal_data (labels : list string) (response : list Z)
  : result (list Z) :=
  match labels with
  | [] => Ok response
  | label :: labels =>
      if (slen label =? 0)%nat then marshal_data labels response
      else
        match Atoi label with
        | None => Panic (PanicMsg "cant convert")
        | Some n => marshal_data labels (response ++ [u8 n])
        end
  end.

Definition marshal (answer : t) : result (list Z) :=
  let response := [] in
  let response := marshal_labels (domainName answer) response in
  let response := response ++ [0] in
  let response := response ++ [u8 (Z.shiftr (answerType answer) 8)] in
  let response := response ++ [u8 (Z.land (answerType answer) 255)] in
  let response := response ++ [u8 (Z.shiftr (answerClass answer) 8)] in
  let response := response ++ [u8 (Z.land (answerClass answer) 255)] in
  let response := response ++ [u8 (Z.shiftr (TTL answer) 24)] in
  let response :=
    response ++ [u8 (Z.land (Z.shiftr (TTL answer) 16) 255)] in
  let response :=
    response ++ [u8 (Z.land (Z.shiftr (TTL answer) 8) 255)] in
  let response := response ++ [u8 (Z.land (TTL answer) 255)] in
  let response := response ++ [u8 (Z.shiftr (RDLENGTH answer) 8)] in
  let response := response ++ [u8 (Z.land (RDLENGTH answer) 255)] in
  marshal_data (Split (data answer) ".") response.

End Answer.

(** The loop [for i := index + 10; i < stop; i++] of [unmarshalAnswer],
    where [stop = index+10+int(answer.RDLENGTH)]; [count] is the number of
    iterations left, [stop - i]. *)
Fixpoint data_loop (count : nat) (data : slice) (i stop : nat)
  (s : string) : result string :=
  match count with
  | O => Ok s
  | S count =>
      do b <- at_index data i;
      let s := (s ++ Itoa b)%string in
      let s := if (i <? stop - 1)%nat then (s ++ ".")%string else s in
      data_loop count data (i + 1) stop s
  end.

Definition unmarshalAnswer (data : slice)
  : result (Answer.t * nat * option error) :=
  let index := 0%nat in
  do r <- name_loop (S (len data)) data index "";
  let '(index, domainName) := r in
  let index := (index + 1)%nat in
  do s <- reslice data index (index + 2);
  do answerType <- Uint16 s;
  do s <- reslice data (index + 2) (index + 4);
  do answerClass <- Uint16 s;
  do s <- reslice data (index + 4) (index + 8);
  do TTL <- Uint32 s;
  do s <- reslice data (index + 8) (index + 10);
  do RDLENGTH <- Uint16 s;
  let stop := (index + 10 + Z.to_nat RDLENGTH)%nat in
  do rdata <- data_loop (Z.to_nat RDLENGTH) data (index + 10) stop "";
  Ok (Answer.mk domainName answerType answerClass TTL RDLENGTH rdata,
      stop, None).

(** ** Message *)

Module DNSResponse.

Record t : Type := mk {
  header : Header.t;
  question : list Question.t;
  answer : list Answer.t
}.

(** The loop [for _, answer := range dnsResponse.answer]. *)
Fixpoint marshal_answers (answers : list Answer.t) (resp : list Z)
  : result (list Z) :=
  match answers with
  | [] => Ok resp
  | answer :: answers =>
      do b <- Answer.marshal answer;
      marshal_answers answers (resp ++ b)
  end.

(** [DNSResponse.build]: the two counts are set from the lists, then
    the header, the questions and the answers are written in order. *)
Definition build (dnsResponse : t) : result (list Z) :=
  let header :=
    Header.set_QDCOUNT (u16 (Z.of_nat (length (question dnsResponse))))
      (header dnsResponse) in
  let header :=
    Header.set_ANCOUNT (u16 (Z.of_nat (length (answer dnsResponse))))
      header in
  let resp := Header.marshal header in
  let resp :=
    fold_left (fun resp question => resp ++ Question.marshal question)
      (question dnsResponse) resp in
  marshal_answers (answer dnsResponse) resp.

End DNSResponse.

(** The reply of [main] to a decoded query: the values [header],
    [question], [answer] and [response] built in the body of its loop. *)
Definition main_response (recivedHeader : Header.t)
  (recivedQuestion : Question.t) : DNSResponse.t :=
  let header :=
    Header.set_OPCODE (Header.OPCODE recivedHeader)
      (Header.set_RD (Header.RD recivedHeader)
         (Header.set_QR 1
            (Header.set_ID (Header.ID recivedHeader) Header.zero))) in
  let header :=
    if Header.OPCODE recivedHeader =? 0 then Header.set_RCODE 0 header
    else Header.set_RCODE 4 header in
  let question :=
    Question.mk (Question.domainName recivedQuestion) 1 1 in
  let answer :=
    Answer.mk (Question.domainName recivedQuestion) 1 1 60 4 "8.8.8.8" in
  DNSResponse.mk header [question] [answer].

(** What one iteration of the loop of [main] does after a datagram was
    received: the reply it sends, or the exit of the process through
    [log.Fatal]. *)
Inductive handled : Type :=
  | Sent (reply : list Z)
  | Fatal.

(** One iteration of the loop of [main].  [buffer] is the receive buffer
    (2048 bytes, reused by every iteration) after [ReadFromUDP] has put a
    datagram of [size] bytes at its start; [recivedData] is [buffer[:size]],
    so the slices handed to the decoders keep the rest of the buffer as
    their spare capacity.  The error of [unmarshalHeader] and that of
    [unmarshalQuestion] are overwritten before they are looked at. *)
Definition main_iteration (buffer : list Z) (size : nat) : result handled :=
  do recivedData <- reslice (full buffer) 0 size;
  do r <- unmarshalHeader recivedData;
  let '(recivedHeader, err) := r in
  do s <- reslice_from recivedData 12;
  do r <- unmarshalQuestion s;
  let '(recivedQuestion, readBytes, err) := r in
  do s <- reslice_from recivedData (12 + readBytes);
  do r <- unmarshalAnswer s;
  let '(recivedAnswer, readBytes, err) := r in
  match err with
  | Some _ => Ok Fatal
  | None =>
      do reply <- DNSResponse.build (main_response recivedHeader recivedQuestion);
      Ok (Sent reply)
  end.

(** ** Vocabulary of the properties *)

(** A label has no dot in it. *)
Definition no_dot (label : string) : bool :=
  forallb (fun c => negb (Ascii.eqb c ".")) (list_ascii_of_string label).

(** A label of a well-formed name: no dot, and 1 to 63 bytes. *)
Definition valid_label (label : string) : bool :=
  no_dot label && (1 <=? slen label)%nat && (slen label <=? 63)%nat.

(** A segment that is not empty. *)
Definition nonempty (label : string) : bool := negb (slen label =? 0)%nat.

(** The wire form of a sequence of labels: each one behind its length
    byte (without the zero byte that ends the name). *)
Definition encode_labels (labels : list string) : list Z :=
  flat_map (fun label => u8 (Z.of_nat (slen label)) :: bytes_of_string label)
    labels.

(** The name of a reply after the loop over the labels: the labels that
    follow the first one, each behind a dot. *)
Definition dotted (labels : list string) : string :=
  fold_right (fun label acc => ("." ++ label ++ acc)%string) "" labels.

(** A label whose length fits the length byte: no dot, 1 to 255 bytes. *)
Definition byte_label (label : string) : bool :=
  no_dot label && (1 <=? slen label)%nat && (slen label <=? 255)%nat.

(** The wire form of a sequence of labels of at most 255 bytes. *)
Definition length_prefixed (labels : list string) : list Z :=
  flat_map (fun label => Z.of_nat (slen label) :: bytes_of_string label)
    labels.


(** In the words of the specification: a segment of the data "parses
    as an integer in the range 0-255". *)
Definition parses_as_octet (segment : string) : bool :=
  match Atoi segment with
  | Some n => (0 <=? n) && (n <=? 255)
  | None => false
  end.

(** The number of bytes the name of an answer takes on the wire, with the
    zero byte that ends it. *)
Definition name_size (a : Answer.t) : nat :=
  (length (marshal_labels (Answer.domainName a) []) + 1)%nat.

(** The RDLENGTH field of an encoded answer: the two bytes behind the
    name, type, class and TTL, as a big-endian number. *)
Definition wire_rdlength (a : Answer.t) (out : list Z) : Z :=
  Z.lor (nth (name_size a + 9) out 0)
        (u16 (Z.shiftl (nth (name_size a + 8) out 0) 8)).

(** The RDATA of an encoded answer: the bytes behind the RDLENGTH field. *)
Definition wire_rdata (a : Answer.t) (out : list Z) : list Z :=
  drop (name_size a + 10) out.

(** In the words of the specification: the RDLENGTH bytes of the encoded
    answer equal the number of RDATA bytes that follow them. *)
Definition rdlength_recomputed (a : Answer.t) : Prop :=
  forall out : list Z,
    Answer.marshal a = Ok out ->
    wire_rdlength a out = Z.of_nat (length (wire_rdata a out)).

(** ** Concrete inputs *)

(** The bytes of the tests of the repository: the question and the
    answer for [codecrafters.io]. *)
Definition codecrafters_question : list Z :=
  [12; 99; 111; 100; 101; 99; 114; 97; 102; 116; 101; 114; 115;
   2; 105; 111; 0; 0; 1; 0; 1].

Definition codecrafters_answer : list Z :=
  codecrafters_question ++ [0; 0; 0; 60; 0; 4; 8; 8; 8; 8].

(** The header of a name-error response: id 1234, [qr=1], [rd=1], and
    byte 3 = 0x83, that is [ra=1], [z=0], [rcode=3]. *)
Definition nxdomain_header : list Z :=
  [4; 210; 129; 131; 0; 1; 0; 0; 0; 0; 0; 0].

(** The header of the reply to a query with opcode 1: [rcode=4]. *)
Definition notimp_header : Header.t :=
  Header.mk 1234 1 1 0 0 1 0 0 4 0 0 0 0.

(** A property of every value of a small range, decided by running it. *)
Definition all_upto (n : nat) (p : Z -> bool) : bool :=
  forallb p (map Z.of_nat (seq 0 (S n))).

(** The start of a question whose first label declares 12 bytes and has
    4: [0c 'c' 'o' 'd' 'e']. *)
Definition truncated_label : list Z := [12; 99; 111; 100; 101].

(** A query for [codecrafters.io]: id 1234, [rd=1], one question. *)
Definition query_datagram : list Z :=
  [4; 210; 1; 0; 0; 1; 0; 0; 0; 0; 0; 0] ++ codecrafters_question.

(** The receive buffer of 2048 bytes with a datagram at its start and
    the byte [fill] everywhere behind it. *)
Definition buffer_with (datagram : list Z) (fill : Z) : list Z :=
  datagram ++ replicate (2048 - length datagram) fill.

(** A [uint32]. *)
Definition is_u32 (x : Z) : Prop := 0 <= x < 2 ^ 32.

(** Every element of a list is a byte. *)
Definition valid_bytes (bs : list Z) : bool :=
  forallb (fun b => (0 <=? b) && (b <=? 255)) bs.

(** The form in which [unmarshalAnswer] returns the RDATA: the decimal
    numbers of its bytes, joined by dots. *)
Definition dotted_decimal (bs : list Z) : string :=
  String.concat "." (map Itoa bs).

(** * Properties *)

(** ** The tests of the repository *)

Example TestHeader :
  Header.marshal (Header.set_QR 1 (Header.set_ID 1234 Header.zero))
  = [4; 210; 128; 0; 0; 0; 0; 0; 0; 0; 0; 0].
Proof. reflexivity. Qed.

Example TestQuestion :
  Question.marshal (Question.mk "codecrafters.io" 1 1) = codecrafters_question.
Proof. reflexivity. Qed.

Example TestAnswer :
  Answer.marshal (Answer.mk "codecrafters.io" 1 1 60 4 "8.8.8.8")
  = Ok codecrafters_answer.
Proof. reflexivity. Qed.

Example TestUnmarshalQuestion :
  unmarshalQuestion (full codecrafters_question)
  = Ok (Question.mk "codecrafters.io" 1 1, 21%nat, None).
Proof. reflexivity. Qed.

Example TestUnmarshalAnswer :
  unmarshalAnswer (full codecrafters_answer)
  = Ok (Answer.mk "codecrafters.io" 1 1 60 4 "8.8.8.8", 31%nat, None).
Proof. reflexivity. Qed.

Example header_scenario :
  unmarshalHeader (full [4; 210; 128; 0; 0; 0; 0; 0; 0; 0; 0; 0])
  = Ok (Header.set_QR 1 (Header.set_ID 1234 Header.zero), None).
Proof. reflexivity. Qed.

(** ** The library functions *)

Example Split_examples :
  Split "codecrafters.io" "." = ["codecrafters"; "io"] /\
  Split "" "." = [""] /\ Split "." "." = [""; ""] /\
  Split "a..b." "." = ["a"; ""; "b"; ""].
Proof. repeat split. Qed.

Example Atoi_examples :
  Atoi "8" = Some 8 /\ Atoi "+8" = Some 8 /\ Atoi "-1" = Some (-1) /\
  Atoi "256" = Some 256 /\ Atoi "007" = Some 7 /\
  Atoi "" = None /\ Atoi "-" = None /\ Atoi "8a" = None /\
  Atoi " 8" = None /\ Atoi "+-8" = None /\
  Atoi "9223372036854775807" = Some 9223372036854775807 /\
  Atoi "9223372036854775808" = None /\
  Atoi "-9223372036854775808" = Some (-9223372036854775808).
Proof. repeat split. Qed.

Example Itoa_examples :
  Itoa 0 = "0" /\ Itoa 8 = "8" /\ Itoa 255 = "255".
Proof. repeat split. Qed.

(** ** Header decode *)

(** The header decoded from a buffer, byte by byte. *)
Lemma unmarshalHeader_bytes (b0 b1 b2 b3 b4 b5 b6 b7 b8 b9 b10 b11 : Z)
  (rest sp : list Z) :
  unmarshalHeader
    (mkSlice (b0 :: b1 :: b2 :: b3 :: b4 :: b5 :: b6 :: b7 :: b8 :: b9
                 :: b10 :: b11 :: rest) sp)
  = Ok (Header.mk (Z.lor b1 (u16 (Z.shiftl b0 8)))
          (Z.shiftr b2 7) (Z.land (Z.shiftr b2 3) 15)
          (Z.land (Z.shiftr b2 2) 1) (Z.land (Z.shiftr b2 1) 1)
          (Z.land b2 1)
          (Z.shiftr b3 7) (Z.land b3 15) 0
          (Z.lor b5 (u16 (Z.shiftl b4 8))) (Z.lor b7 (u16 (Z.shiftl b6 8)))
          (Z.lor b9 (u16 (Z.shiftl b8 8)))
          (Z.lor b11 (u16 (Z.shiftl b10 8))),
        None).
Proof. reflexivity. Qed.

(** A buffer of at least 12 bytes shows its first 12 bytes. *)
Lemma twelve_bytes (l : list Z) :
  (12 <= length l)%nat ->
  exists b0 b1 b2 b3 b4 b5 b6 b7 b8 b9 b10 b11 rest,
    l = b0 :: b1 :: b2 :: b3 :: b4 :: b5 :: b6 :: b7 :: b8 :: b9
           :: b10 :: b11 :: rest.
Proof.
  intros H.
  do 12 (destruct l as [|? l]; [simpl in H; lia|]).
  repeat eexists.
Qed.

(** C9. Header decode returns the size error (and the zero header) for
    every buffer of fewer than 12 bytes, and returns a header with a nil
    error, without panic, for every buffer of 12 bytes or more. *)
Theorem unmarshalHeader_too_short_iff (data : slice) :
  ((len data < 12)%nat /\
   unmarshalHeader data = Ok (Header.zero, Some header_size_error))
  \/
  ((12 <= len data)%nat /\
   exists h : Header.t, unmarshalHeader data = Ok (h, None)).
Proof.
  destruct (Nat.ltb_spec (len data) 12) as [Hlt | Hge].
  - left. split; [exact Hlt|].
    unfold unmarshalHeader.
    destruct (Nat.ltb_spec (len data) 12); [reflexivity | lia].
  - right. split; [exact Hge|].
    destruct data as [v sp]. unfold len in Hge. simpl in Hge.
    destruct (twelve_bytes v Hge)
      as (b0 & b1 & b2 & b3 & b4 & b5 & b6 & b7 & b8 & b9 & b10 & b11
          & rest & ->).
    eexists. apply unmarshalHeader_bytes.
Qed.

(** What the decoder makes of byte 3, for every buffer it accepts: [RA]
    is bit 7, the field [Z] receives the low four bits and [RCODE] stays
    zero. *)
Lemma unmarshalHeader_byte3 (data : slice) :
  (12 <= len data)%nat ->
  exists (h : Header.t) (b3 : Z),
    vis data !! 3%nat = Some b3 /\
    unmarshalHeader data = Ok (h, None) /\
    Header.RA h = Z.shiftr b3 7 /\
    Header.Z_ h = Z.land b3 15 /\
    Header.RCODE h = 0.
Proof.
  intros Hge. destruct data as [v sp]. unfold len in Hge. simpl in Hge.
  destruct (twelve_bytes v Hge)
    as (b0 & b1 & b2 & b3 & b4 & b5 & b6 & b7 & b8 & b9 & b10 & b11
        & rest & ->).
  eexists. exists b3. split; [reflexivity|].
  split; [apply unmarshalHeader_bytes|]. simpl. auto.
Qed.

(** C2. On the 12 bytes [04 D2 81 83 00 01 00 00 00 00 00 00], whose
    byte 3 holds [ra=1], [z=(0x83>>4)&7=0] and [rcode=0x83&0xF=3], the
    decoder returns [RA=1] but [Z=3] and [RCODE=0]: the low four bits go
    to the field [Z] and [RCODE] is left at zero. *)
Theorem unmarshalHeader_byte3_nxdomain :
  exists h : Header.t,
    unmarshalHeader (full nxdomain_header) = Ok (h, None) /\
    Header.RA h = Z.shiftr 131 7 /\
    Z.land (Z.shiftr 131 4) 7 = 0 /\ Header.Z_ h = 3 /\
    Z.land 131 15 = 3 /\ Header.RCODE h = 0.
Proof. eexists. split; [reflexivity|]. repeat split. Qed.

(** ** Header round trip *)

(** C1. The header [{ID:1234, QR:1, OPCODE:1, RD:1, RCODE:4}] has every
    field within its width, and decoding its 12 encoded bytes gives a
    different header: [Z=4] and [RCODE=0]. *)
Theorem header_round_trip_notimp :
  Header.ok notimp_header /\
  Header.marshal notimp_header = [4; 210; 137; 4; 0; 0; 0; 0; 0; 0; 0; 0] /\
  unmarshalHeader (full (Header.marshal notimp_header))
  = Ok (Header.set_RCODE 0 (Header.set_Z 4 notimp_header), None) /\
  Header.set_RCODE 0 (Header.set_Z 4 notimp_header) <> notimp_header.
Proof.
  split; [|split; [reflexivity | split; [reflexivity | discriminate]]].
  unfold Header.ok, is_u16, notimp_header. simpl. lia.
Qed.

Lemma all_upto_spec (n : nat) (p : Z -> bool) :
  all_upto n p = true -> forall x, 0 <= x <= Z.of_nat n -> p x = true.
Proof.
  unfold all_upto. rewrite forallb_forall. intros H x Hx.
  apply H. rewrite in_map_iff. exists (Z.to_nat x). split; [lia|].
  apply in_seq. lia.
Qed.

(** The two bytes of a [uint16], put together again. *)
Lemma u16_bytes (x : Z) :
  is_u16 x ->
  Z.lor (u8 (Z.land x 255)) (u16 (Z.shiftl (u8 (Z.shiftr x 8)) 8)) = x.
Proof.
  unfold is_u16, u8, u16. intros Hx.
  change 255 with (Z.ones 8). rewrite Z.land_ones by lia.
  rewrite Z.shiftr_div_pow2 by lia.
  rewrite Z.mod_mod by lia.
  assert (Hhi : 0 <= x / 2 ^ 8 < 2 ^ 8).
  { split; [apply Z.div_pos; lia | apply Z.div_lt_upper_bound; lia]. }
  rewrite (Z.mod_small (x / 2 ^ 8)) by lia.
  rewrite Z.shiftl_mul_pow2 by lia.
  rewrite (Z.mod_small (x / 2 ^ 8 * 2 ^ 8)) by lia.
  rewrite <- Z.shiftr_div_pow2, <- Z.shiftl_mul_pow2 by lia.
  rewrite <- Z.ldiff_ones_r by lia.
  rewrite <- Z.land_ones by lia.
  rewrite Z.lor_comm. apply Z.lor_ldiff_and.
Qed.

(** Byte 2 of an encoded header gives back its five fields. *)
Lemma flags_byte2 (qr opcode aa tc rd : Z) :
  0 <= qr <= 1 -> 0 <= opcode <= 15 -> 0 <= aa <= 1 -> 0 <= tc <= 1 ->
  0 <= rd <= 1 ->
  let b :=
    Z.lor (Z.lor (Z.lor (Z.lor (u8 (Z.shiftl qr 7)) (u8 (Z.shiftl opcode 3)))
                        (u8 (Z.shiftl aa 2))) (u8 (Z.shiftl tc 1))) rd in
  Z.shiftr b 7 = qr /\ Z.land (Z.shiftr b 3) 15 = opcode /\
  Z.land (Z.shiftr b 2) 1 = aa /\ Z.land (Z.shiftr b 1) 1 = tc /\
  Z.land b 1 = rd.
Proof.
  intros Hqr Hop Haa Htc Hrd.
  assert (Hall :
    all_upto 1 (fun qr => all_upto 15 (fun opcode => all_upto 1 (fun aa =>
    all_upto 1 (fun tc => all_upto 1 (fun rd =>
      let b :=
        Z.lor (Z.lor (Z.lor (Z.lor (u8 (Z.shiftl qr 7))
                                   (u8 (Z.shiftl opcode 3)))
                            (u8 (Z.shiftl aa 2))) (u8 (Z.shiftl tc 1))) rd in
      (Z.shiftr b 7 =? qr) && (Z.land (Z.shiftr b 3) 15 =? opcode)
      && (Z.land (Z.shiftr b 2) 1 =? aa) && (Z.land (Z.shiftr b 1) 1 =? tc)
      && (Z.land b 1 =? rd)))))) = true) by (vm_compute; reflexivity).
  pose proof (all_upto_spec _ _ Hall qr Hqr) as H1. cbv beta in H1.
  pose proof (all_upto_spec _ _ H1 opcode Hop) as H2. cbv beta in H2.
  pose proof (all_upto_spec _ _ H2 aa Haa) as H3. cbv beta in H3.
  pose proof (all_upto_spec _ _ H3 tc Htc) as H4. cbv beta in H4.
  pose proof (all_upto_spec _ _ H4 rd Hrd) as H5. cbv beta zeta in H5.
  rewrite !andb_true_iff, !Z.eqb_eq in H5. cbv zeta. tauto.
Qed.

(** Byte 3 of an encoded header: bit 7 is [ra]; its low four bits are
    [rcode]. *)
Lemma flags_byte3 (ra z rcode : Z) :
  0 <= ra <= 1 -> 0 <= z <= 7 -> 0 <= rcode <= 15 ->
  let b := Z.lor (Z.lor (u8 (Z.shiftl ra 7)) (u8 (Z.shiftl z 4))) rcode in
  Z.shiftr b 7 = ra /\ Z.land (Z.shiftr b 4) 7 = z /\ Z.land b 15 = rcode.
Proof.
  intros Hra Hz Hrc.
  assert (Hall :
    all_upto 1 (fun ra => all_upto 7 (fun z => all_upto 15 (fun rcode =>
      let b :=
        Z.lor (Z.lor (u8 (Z.shiftl ra 7)) (u8 (Z.shiftl z 4))) rcode in
      (Z.shiftr b 7 =? ra) && (Z.land (Z.shiftr b 4) 7 =? z)
      && (Z.land b 15 =? rcode)))) = true) by (vm_compute; reflexivity).
  pose proof (all_upto_spec _ _ Hall ra Hra) as H1. cbv beta in H1.
  pose proof (all_upto_spec _ _ H1 z Hz) as H2. cbv beta in H2.
  pose proof (all_upto_spec _ _ H2 rcode Hrc) as H3. cbv beta zeta in H3.
  rewrite !andb_true_iff, !Z.eqb_eq in H3. cbv zeta. tauto.
Qed.

(** What decoding an encoded header gives, for every header within its
    bit widths and whatever lies behind the 12 bytes: every field comes
    back except [Z], which receives [RCODE], and [RCODE], which is zero.
    The round trip holds exactly for the headers with [Z = RCODE = 0]. *)
Lemma header_round_trip_but_rcode (h : Header.t) (sp : list Z) :
  Header.ok h ->
  unmarshalHeader (mkSlice (Header.marshal h) sp)
  = Ok (Header.set_RCODE 0 (Header.set_Z (Header.RCODE h) h), None).
Proof.
  destruct h as [id qr opcode aa tc rd ra z rcode qd an ns ar].
  unfold Header.ok. simpl.
  intros (Hid & Hqr & Hop & Haa & Htc & Hrd & Hra & Hz & Hrc
          & Hqd & Han & Hns & Har).
  change (Header.marshal (Header.mk id qr opcode aa tc rd ra z rcode
                            qd an ns ar))
    with [u8 (Z.shiftr id 8); u8 (Z.land id 255);
          Z.lor (Z.lor (Z.lor (Z.lor (u8 (Z.shiftl qr 7))
                                     (u8 (Z.shiftl opcode 3)))
                              (u8 (Z.shiftl aa 2))) (u8 (Z.shiftl tc 1))) rd;
          Z.lor (Z.lor (u8 (Z.shiftl ra 7)) (u8 (Z.shiftl z 4))) rcode;
          u8 (Z.shiftr qd 8); u8 (Z.land qd 255);
          u8 (Z.shiftr an 8); u8 (Z.land an 255);
          u8 (Z.shiftr ns 8); u8 (Z.land ns 255);
          u8 (Z.shiftr ar 8); u8 (Z.land ar 255)].
  rewrite unmarshalHeader_bytes.
  destruct (flags_byte2 qr opcode aa tc rd Hqr Hop Haa Htc Hrd)
    as (-> & -> & -> & -> & ->).
  destruct (flags_byte3 ra z rcode Hra Hz Hrc) as (-> & _ & ->).
  rewrite !u16_bytes by assumption.
  reflexivity.
Qed.

(** The round trip of the headers whose [Z] and [RCODE] are zero. *)
Corollary header_round_trip_zero (h : Header.t) (sp : list Z) :
  Header.ok h -> Header.Z_ h = 0 -> Header.RCODE h = 0 ->
  unmarshalHeader (mkSlice (Header.marshal h) sp) = Ok (h, None).
Proof.
  intros Hok Hz Hrc. rewrite header_round_trip_but_rcode by exact Hok.
  destruct h. simpl in Hz, Hrc. subst. reflexivity.
Qed.

(** ** The decoders of questions and answers: outcomes *)

(** The operations on slices return or panic; none of them loops. *)
Lemma at_index_fuel (s : slice) (i : nat) : at_index s i <> OutOfFuel.
Proof. unfold at_index. destruct (vis s !! i); discriminate. Qed.

Lemma reslice_fuel (s : slice) (lo hi : nat) : reslice s lo hi <> OutOfFuel.
Proof. unfold reslice. destruct (_ && _); discriminate. Qed.

Lemma Uint16_fuel (b : slice) : Uint16 b <> OutOfFuel.
Proof.
  unfold Uint16.
  destruct (at_index b 1) eqn:E1; simpl; try discriminate;
    try (destruct (at_index_fuel _ _ E1)).
  destruct (at_index b 0) eqn:E0; simpl; try discriminate;
    try (destruct (at_index_fuel _ _ E0)).
Qed.

Lemma Uint32_fuel (b : slice) : Uint32 b <> OutOfFuel.
Proof.
  unfold Uint32.
  destruct (at_index b 3) eqn:E3; simpl; try discriminate;
    try (destruct (at_index_fuel _ _ E3)).
  destruct (at_index b 0) eqn:E0; simpl; try discriminate;
    try (destruct (at_index_fuel _ _ E0)).
  destruct (at_index b 1) eqn:E1; simpl; try discriminate;
    try (destruct (at_index_fuel _ _ E1)).
  destruct (at_index b 2) eqn:E2; simpl; try discriminate;
    try (destruct (at_index_fuel _ _ E2)).
Qed.

Lemma data_loop_fuel (count : nat) (data : slice) (i stop : nat) (s : string) :
  data_loop count data i stop s <> OutOfFuel.
Proof.
  revert i s. induction count as [|count IH]; intros i s; simpl;
    [discriminate|].
  destruct (at_index data i) eqn:E; simpl; try discriminate;
    [apply IH | destruct (at_index_fuel _ _ E)].
Qed.

(** The loop over the labels ends within the iterations it is given:
    an iteration that goes on has [index < len(data)] and moves [index]
    forward. *)
Lemma name_loop_fuel (fuel : nat) (data : slice) (index : nat) (name : string) :
  (0 < fuel)%nat -> (len data < index + fuel)%nat ->
  name_loop fuel data index name <> OutOfFuel.
Proof.
  revert index name.
  induction fuel as [|fuel IH]; intros index name Hpos Hlen; [lia|].
  simpl. destruct (Nat.ltb_spec index (len data)) as [Hlt|Hge];
    [|discriminate].
  destruct (at_index data index) as [b| |] eqn:Eb; simpl; try discriminate;
    [|destruct (at_index_fuel _ _ Eb)].
  destruct (b =? 0); [discriminate|].
  destruct (reslice data (index + 1) (index + Z.to_nat b + 1))
    as [label| |] eqn:El; simpl; try discriminate;
    [|destruct (reslice_fuel _ _ _ El)].
  apply IH; lia.
Qed.

(** No statement of a decoder runs out of iterations. *)
Ltac fuel_absurd E :=
  exfalso;
  first [ exact (at_index_fuel _ _ E) | exact (reslice_fuel _ _ _ E)
        | exact (Uint16_fuel _ E) | exact (Uint32_fuel _ E)
        | exact (data_loop_fuel _ _ _ _ _ E) ].

(** One statement of a decoder: it returns and the decoder goes on, or it
    panics and so does the decoder. *)
Ltac decode_step :=
  match goal with
  | |- context [bind ?m _] =>
      let E := fresh "E" in
      destruct m eqn:E; cbn [bind];
      [ | left; eexists; reflexivity | fuel_absurd E ]
  end.

(** C10. For every buffer, [unmarshalQuestion] and [unmarshalAnswer]
    either panic or return with a nil error: neither ever returns an
    error, and neither fails to terminate. *)
Theorem unmarshal_error_always_nil (data : slice) :
  ((exists p, unmarshalQuestion data = Panic p) \/
   (exists q n, unmarshalQuestion data = Ok (q, n, None)))
  /\
  ((exists p, unmarshalAnswer data = Panic p) \/
   (exists a n, unmarshalAnswer data = Ok (a, n, None))).
Proof.
  assert (Hloop : name_loop (S (len data)) data 0 "" <> OutOfFuel)
    by (apply name_loop_fuel; lia).
  split.
  - unfold unmarshalQuestion.
    destruct (name_loop (S (len data)) data 0 "") as [[index name]|p|];
      cbn [bind]; [|left; eauto|contradiction].
    repeat decode_step. right. eauto.
  - unfold unmarshalAnswer.
    destruct (name_loop (S (len data)) data 0 "") as [[index name]|p|];
      cbn [bind]; [|left; eauto|contradiction].
    repeat decode_step. right. eauto.
Qed.

(** ** Truncated labels *)

(** A label whose declared length reaches behind the capacity of the
    buffer makes the loop over the labels panic. *)
Lemma name_loop_truncated (fuel : nat) (data : slice) (index : nat)
  (name : string) (b : Z) :
  vis data !! index = Some b -> b <> 0 ->
  (cap data < index + Z.to_nat b + 1)%nat ->
  name_loop (S fuel) data index name = Panic SliceBoundsOutOfRange.
Proof.
  intros Hb Hnz Hcap. simpl.
  assert (Hlt : (index < len data)%nat) by (eapply lookup_lt_Some; eauto).
  destruct (Nat.ltb_spec index (len data)); [|lia].
  unfold at_index. rewrite Hb. simpl.
  destruct (Z.eqb_spec b 0); [contradiction|].
  unfold reslice.
  destruct (Nat.leb_spec (index + Z.to_nat b + 1) (cap data)); [lia|].
  rewrite andb_false_r. reflexivity.
Qed.

(** C5. On the truncated buffer [0c 'code'], whose label declares 12
    bytes, neither decoder returns an error value.  When the capacity of
    the slice is its length both panic with a slice-bounds fault; when
    the slice has spare capacity (it always has in the server, whose
    receive buffer is 2048 bytes) the label is read from behind the
    datagram and the decoder returns a nil error. *)
Theorem unmarshal_truncated_label :
  unmarshalQuestion (full truncated_label) = Panic SliceBoundsOutOfRange /\
  unmarshalAnswer (full truncated_label) = Panic SliceBoundsOutOfRange /\
  unmarshalQuestion (mkSlice truncated_label (replicate 16 0))
  = Ok (Question.mk (string_of_bytes ([99; 111; 100; 101] ++ replicate 8 0))
          0 0, 18%nat, None).
Proof. repeat split. Qed.

(** ** The reply of the server *)

(** C7. The reply built from a decoded query: the header copies [ID],
    [RD] and [OPCODE], has [QR=1], [RCODE=0] for opcode 0 and [RCODE=4]
    otherwise, and [AA], [TC], [RA], [Z] zero; there is one answer, with
    the name of the query, type 1, class 1, TTL 60 and the data
    [8.8.8.8], which is written as the four bytes [8 8 8 8]. *)
Theorem main_response_fields (recivedHeader : Header.t)
  (recivedQuestion : Question.t) :
  let response := main_response recivedHeader recivedQuestion in
  let header := DNSResponse.header response in
  Header.ID header = Header.ID recivedHeader /\
  Header.RD header = Header.RD recivedHeader /\
  Header.OPCODE header = Header.OPCODE recivedHeader /\
  Header.QR header = 1 /\
  Header.RCODE header = (if Header.OPCODE recivedHeader =? 0 then 0 else 4) /\
  Header.AA header = 0 /\ Header.TC header = 0 /\
  Header.RA header = 0 /\ Header.Z_ header = 0 /\
  DNSResponse.answer response
  = [Answer.mk (Question.domainName recivedQuestion) 1 1 60 4 "8.8.8.8"] /\
  Answer.marshal_data (Split "8.8.8.8" ".") [] = Ok [8; 8; 8; 8].
Proof.
  unfold main_response. cbv zeta.
  destruct (Header.OPCODE recivedHeader =? 0); simpl; repeat split.
Qed.


(** Whenever an iteration of the server sends a reply, the reply is the
    encoding of [main_response] for the header and the question decoded
    from the datagram. *)
Lemma main_iteration_sent (buffer : list Z) (size : nat) (reply : list Z) :
  main_iteration buffer size = Ok (Sent reply) ->
  exists recivedData recivedHeader err s recivedQuestion readBytes err',
    reslice (full buffer) 0 size = Ok recivedData /\
    unmarshalHeader recivedData = Ok (recivedHeader, err) /\
    reslice_from recivedData 12 = Ok s /\
    unmarshalQuestion s = Ok (recivedQuestion, readBytes, err') /\
    DNSResponse.build (main_response recivedHeader recivedQuestion)
    = Ok reply.
Proof.
  unfold main_iteration. intros H.
  destruct (reslice (full buffer) 0 size) as [recivedData| |] eqn:E1;
    cbn [bind] in H; try discriminate.
  destruct (unmarshalHeader recivedData) as [[recivedHeader err]| |] eqn:E2;
    cbn [bind] in H; try discriminate.
  destruct (reslice_from recivedData 12) as [s| |] eqn:E3;
    cbn [bind] in H; try discriminate.
  destruct (unmarshalQuestion s) as [[[recivedQuestion readBytes] err']| |]
    eqn:E4; cbn [bind] in H; try discriminate.
  destruct (reslice_from recivedData (12 + readBytes)) as [s'| |];
    cbn [bind] in H; try discriminate.
  destruct (unmarshalAnswer s') as [[[recivedAnswer readBytes'] err'']| |];
    cbn [bind] in H; try discriminate.
  destruct err''; [discriminate|].
  destruct (DNSResponse.build (main_response recivedHeader recivedQuestion))
    as [reply'| |] eqn:E5; cbn [bind] in H; try discriminate.
  injection H as ->.
  exists recivedData, recivedHeader, err, s, recivedQuestion, readBytes, err'.
  auto.
Qed.

(** A query received in a buffer of zeros is answered: the decoder of
    answers reads zeros from behind the datagram. *)
Example main_iteration_query :
  main_iteration (buffer_with query_datagram 0) 33
  = Ok (Sent ([4; 210; 129; 0; 0; 1; 0; 1; 0; 0; 0; 0]
              ++ codecrafters_question ++ codecrafters_answer)).
Proof. vm_compute. reflexivity. Qed.

(** The same query received in a buffer that holds other bytes behind
    it: the decoder of answers takes an RDLENGTH from them and panics. *)
Example main_iteration_stale_buffer :
  main_iteration (buffer_with query_datagram 1) 33 = Panic IndexOutOfRange.
Proof. vm_compute. reflexivity. Qed.

(** ** Strings, labels and their bytes *)

Lemma append_assoc (a b c : string) :
  ((a ++ b) ++ c = a ++ (b ++ c))%string.
Proof. induction a as [|x a IH]; simpl; [reflexivity | now rewrite IH]. Qed.

Lemma append_empty_r (a : string) : (a ++ "")%string = a.
Proof. induction a as [|x a IH]; simpl; [reflexivity | now rewrite IH]. Qed.

Lemma bytes_of_string_length (s : string) :
  length (bytes_of_string s) = slen s.
Proof.
  unfold bytes_of_string, slen. rewrite length_map.
  induction s as [|c s IH]; simpl; [reflexivity | now rewrite IH].
Qed.

Lemma string_of_bytes_of_string (s : string) :
  string_of_bytes (bytes_of_string s) = s.
Proof.
  unfold string_of_bytes, bytes_of_string.
  induction s as [|c s IH]; simpl; [reflexivity|].
  rewrite N2Z.id, ascii_N_embedding. now rewrite IH.
Qed.

Lemma Split_not_nil (s : string) (sep : ascii) : Split s sep <> [].
Proof.
  destruct s as [|c s]; simpl; [discriminate|].
  destruct (Ascii.eqb c sep); [discriminate|].
  destruct (Split s sep); discriminate.
Qed.

(** A string without separator is one segment. *)
Lemma Split_no_dot (label : string) :
  no_dot label = true -> Split label "." = [label].
Proof.
  unfold no_dot. induction label as [|c label IH]; simpl; [reflexivity|].
  rewrite andb_true_iff, negb_true_iff. intros [Hc Hl].
  rewrite Hc, (IH Hl). reflexivity.
Qed.

(** The first segment ends at the first separator. *)
Lemma Split_dot (label rest : string) :
  no_dot label = true ->
  Split (label ++ String "." rest) "." = label :: Split rest ".".
Proof.
  unfold no_dot. induction label as [|c label IH]; simpl; [reflexivity|].
  rewrite andb_true_iff, negb_true_iff. intros [Hc Hl].
  rewrite Hc, (IH Hl). reflexivity.
Qed.

(** Splitting the labels joined by dots gives the labels back. *)
Lemma Split_concat (labels : list string) :
  labels <> [] -> forallb no_dot labels = true ->
  Split (String.concat "." labels) "." = labels.
Proof.
  induction labels as [|label labels IH]; [contradiction|].
  intros _. simpl forallb. rewrite andb_true_iff. intros [Hl Hls].
  destruct labels as [|label' labels].
  - simpl. apply Split_no_dot, Hl.
  - change (String.concat "." (label :: label' :: labels))
      with (label ++ String "." (String.concat "." (label' :: labels)))%string.
    rewrite Split_dot by exact Hl.
    rewrite IH; [reflexivity | discriminate | exact Hls].
Qed.

(** The labels joined by dots: the first one, then the others behind a
    dot each. *)
Lemma concat_dotted (label : string) (labels : list string) :
  String.concat "." (label :: labels) = (label ++ dotted labels)%string.
Proof.
  revert label. induction labels as [|label' labels IH]; intros label.
  - simpl. now rewrite append_empty_r.
  - change (String.concat "." (label :: label' :: labels))
      with (label ++ String "." (String.concat "." (label' :: labels)))%string.
    rewrite IH. reflexivity.
Qed.

(** ** Encoding a name *)

Lemma marshal_label_app (resp : list Z) (label : string) :
  marshal_label resp label
  = resp ++ encode_labels (List.filter nonempty [label]).
Proof.
  unfold marshal_label, nonempty, encode_labels. simpl.
  destruct (slen label =? 0)%nat; simpl.
  - now rewrite app_nil_r.
  - rewrite app_nil_r, <- app_assoc. reflexivity.
Qed.

Lemma encode_labels_app (l1 l2 : list string) :
  encode_labels (l1 ++ l2) = encode_labels l1 ++ encode_labels l2.
Proof. unfold encode_labels. apply flat_map_app. Qed.

Lemma fold_marshal_label (labels : list string) (resp : list Z) :
  fold_left marshal_label labels resp
  = resp ++ encode_labels (List.filter nonempty labels).
Proof.
  revert resp. induction labels as [|label labels IH]; intros resp.
  - simpl. now rewrite app_nil_r.
  - simpl fold_left. rewrite IH, marshal_label_app, <- app_assoc.
    rewrite <- encode_labels_app.
    change (label :: labels) with ([label] ++ labels).
    now rewrite List.filter_app.
Qed.

(** The loop over the labels appends the wire form of the segments that
    are not empty. *)
Lemma marshal_labels_encode (name : string) (resp : list Z) :
  marshal_labels name resp
  = resp
    ++ encode_labels (List.filter nonempty (Split name ".")).
Proof. apply fold_marshal_label. Qed.

Lemma filter_nonempty_labels (labels : list string) :
  forallb byte_label labels = true -> List.filter nonempty labels = labels.
Proof.
  induction labels as [|label labels IH]; simpl; [reflexivity|].
  rewrite andb_true_iff. intros [Hl Hls].
  unfold byte_label in Hl. rewrite !andb_true_iff in Hl.
  destruct Hl as [[_ Hge] _]. apply Nat.leb_le in Hge.
  assert (Hne : nonempty label = true).
  { unfold nonempty. destruct (Nat.eqb_spec (slen label) 0); [lia|reflexivity]. }
  rewrite Hne, IH by exact Hls. reflexivity.
Qed.

Lemma encode_byte_labels (labels : list string) :
  forallb byte_label labels = true ->
  encode_labels labels = length_prefixed labels.
Proof.
  unfold encode_labels, length_prefixed.
  induction labels as [|label labels IH]; simpl; [reflexivity|].
  rewrite andb_true_iff. intros [Hl Hls].
  unfold byte_label in Hl. rewrite !andb_true_iff in Hl.
  destruct Hl as [[_ Hge] Hle].
  apply Nat.leb_le in Hge. apply Nat.leb_le in Hle.
  rewrite (IH Hls). unfold u8. rewrite Z.mod_small by lia. reflexivity.
Qed.

Lemma byte_labels_no_dot (labels : list string) :
  forallb byte_label labels = true -> forallb no_dot labels = true.
Proof.
  induction labels as [|label labels IH]; simpl; [reflexivity|].
  rewrite !andb_true_iff. intros [Hl Hls]. split; [|auto].
  unfold byte_label in Hl. rewrite !andb_true_iff in Hl. tauto.
Qed.

(** The name made of labels of 1 to 255 bytes is written label by label,
    each behind its length. *)
Lemma marshal_labels_joined (labels : list string) (resp : list Z) :
  forallb byte_label labels = true ->
  marshal_labels (String.concat "." labels) resp
  = resp ++ length_prefixed labels.
Proof.
  intros Hls. rewrite marshal_labels_encode.
  destruct labels as [|label labels]; [reflexivity|].
  rewrite Split_concat;
    [| discriminate | apply byte_labels_no_dot, Hls].
  rewrite filter_nonempty_labels, encode_byte_labels by exact Hls.
  reflexivity.
Qed.

(** The loop over the segments of the data only appends to what was
    written before it. *)
Lemma marshal_data_prefix (labels : list string) (resp : list Z) :
  Answer.marshal_data labels resp
  = do rdata <- Answer.marshal_data labels []; Ok (resp ++ rdata).
Proof.
  revert resp. induction labels as [|label labels IH]; intros resp.
  - simpl. now rewrite app_nil_r.
  - simpl. destruct (slen label =? 0)%nat; [apply IH|].
    destruct (Atoi label) as [n|]; [|reflexivity].
    rewrite (IH (resp ++ [u8 n])), (IH [u8 n]).
    destruct (Answer.marshal_data labels []) as [rdata| |]; simpl;
      [|reflexivity|reflexivity].
    now rewrite <- app_assoc.
Qed.

(** ** Labels of more than 63 bytes *)


(** A question whose name is made of labels of 1 to 255 bytes, on the
    wire. *)
Lemma Question_marshal_joined (labels : list string) (qtype qclass : Z) :
  forallb byte_label labels = true ->
  Question.marshal (Question.mk (String.concat "." labels) qtype qclass)
  = length_prefixed labels
    ++ [0; u8 (Z.shiftr qtype 8); u8 (Z.land qtype 255);
        u8 (Z.shiftr qclass 8); u8 (Z.land qclass 255)].
Proof.
  intros Hls. unfold Question.marshal. cbv zeta.
  cbn [Question.domainName Question.questionType Question.questionClass].
  rewrite marshal_labels_joined by exact Hls.
  cbn [app]. rewrite <- !app_assoc. reflexivity.
Qed.



(** ** The data of an answer *)

(** The loop over the segments panics at a segment that is not empty
    and that [Atoi] rejects, and otherwise returns one byte for each
    segment that is not empty. *)
Lemma marshal_data_cases (labels : list string) (resp : list Z) :
  (Answer.marshal_data labels resp = Panic (PanicMsg "cant convert") /\
   exists seg, In seg labels /\ nonempty seg = true /\ Atoi seg = None)
  \/
  (exists rdata,
     Answer.marshal_data labels resp = Ok (resp ++ rdata) /\
     length rdata = length (List.filter nonempty labels) /\
     forall seg, In seg labels -> nonempty seg = true -> Atoi seg <> None).
Proof.
  revert resp. induction labels as [|label labels IH]; intros resp.
  - right. exists []. simpl. rewrite app_nil_r.
    repeat split. intros seg [].
  - assert (Hnb : nonempty label = negb (slen label =? 0)%nat)
      by reflexivity.
    cbn [Answer.marshal_data List.filter].
    destruct (slen label =? 0)%nat eqn:Hlen; rewrite Hnb; cbn [negb].
    + destruct (IH resp) as [(Hp & seg & Hin & Hne & Hat)
                            | (rdata & Hok & Hl & Hall)].
      * left. split; [exact Hp|]. exists seg. simpl. auto.
      * right. exists rdata. split; [exact Hok|]. split; [exact Hl|].
        intros seg [<-|Hin] Hne; [|auto].
        rewrite Hnb in Hne. discriminate.
    + destruct (Atoi label) as [n|] eqn:Hat.
      * destruct (IH (resp ++ [u8 n]))
          as [(Hp & seg & Hin & Hne & Hat')
             | (rdata & Hok & Hl & Hall)].
        -- left. split; [exact Hp|]. exists seg. simpl. auto.
        -- right. exists (u8 n :: rdata). rewrite Hok, <- app_assoc.
           split; [reflexivity|]. split; [simpl; now rewrite Hl|].
           intros seg [<-|Hin] Hne; [congruence|auto].
      * left. split; [reflexivity|]. exists label.
        rewrite Hnb. simpl. auto.
Qed.

(** What the loop over the segments writes when it returns: for each
    segment that is not empty, in order, the low eight bits of the number
    [Atoi] reads in it. *)
Lemma marshal_data_values (labels : list string) (resp out : list Z) :
  Answer.marshal_data labels resp = Ok out ->
  exists values,
    Forall2 (fun seg n => Atoi seg = Some n)
      (List.filter nonempty labels) values /\
    out = resp ++ map (fun n => n mod 256) values.
Proof.
  revert resp. induction labels as [|label labels IH]; intros resp H.
  - simpl in H. injection H as <-. exists []. split; [constructor|].
    simpl. now rewrite app_nil_r.
  - assert (Hnb : nonempty label = negb (slen label =? 0)%nat)
      by reflexivity.
    cbn [Answer.marshal_data List.filter] in H |- *.
    destruct (slen label =? 0)%nat eqn:Hlen; rewrite Hnb; cbn [negb].
    + apply IH, H.
    + destruct (Atoi label) as [n|] eqn:Hat; [|discriminate].
      destruct (IH _ H) as (values & HF & ->).
      exists (n :: values). split; [constructor; assumption|].
      rewrite <- app_assoc. reflexivity.
Qed.

(** The RDATA of an encoded answer: one byte for each segment of the
    data that is not empty, in order. *)
Lemma marshal_rdata_values (a : Answer.t) (out : list Z) :
  Answer.marshal a = Ok out ->
  exists values,
    Forall2 (fun seg n => Atoi seg = Some n)
      (List.filter nonempty (Split (Answer.data a) ".")) values /\
    wire_rdata a out = map (fun n => n mod 256) values.
Proof.
  unfold Answer.marshal. cbv zeta. intros H.
  apply marshal_data_values in H. destruct H as (values & HF & ->).
  exists values. split; [exact HF|].
  unfold wire_rdata, name_size.
  apply drop_app_length'. rewrite !length_app. simpl. lia.
Qed.

(** C6, as stated, fails: the segment [256] is not an integer in the
    range 0-255, and the answer is encoded all the same, with the data
    byte 0. *)
Lemma marshal_256_no_failure :
  In "256" (Split "256" ".") /\ parses_as_octet "256" = false /\
  Answer.marshal (Answer.mk "" 1 1 60 1 "256")
  = Ok [0; 0; 1; 0; 1; 0; 0; 0; 60; 0; 1; 0].
Proof. split; [left; reflexivity | split; reflexivity]. Qed.

(** C6, amended. Encoding an answer panics if and only if some segment
    of its data is not empty and is rejected by [strconv.Atoi]; it has no
    other failure; a segment [Atoi] accepts is written as the low eight
    bits of its value, whatever the value; and when the encoding returns,
    its RDATA is, in order, that byte for every segment of the data that
    is not empty, the empty segments being skipped. *)
Theorem marshal_panics_iff_Atoi_error (a : Answer.t) :
  (Answer.marshal a = Panic (PanicMsg "cant convert") <->
   exists seg, In seg (Split (Answer.data a) ".") /\
               nonempty seg = true /\ Atoi seg = None)
  /\
  ((exists out, Answer.marshal a = Ok out) \/
   Answer.marshal a = Panic (PanicMsg "cant convert"))
  /\
  (forall (seg : string) (n : Z) (resp : list Z),
     nonempty seg = true -> Atoi seg = Some n ->
     Answer.marshal_data [seg] resp = Ok (resp ++ [n mod 256]))
  /\
  (forall out : list Z,
     Answer.marshal a = Ok out ->
     exists values : list Z,
       Forall2 (fun seg n => Atoi seg = Some n)
         (List.filter nonempty (Split (Answer.data a) ".")) values /\
       wire_rdata a out = map (fun n => n mod 256) values).
Proof.
  assert (Hone :
    forall (seg : string) (n : Z) (resp : list Z),
      nonempty seg = true -> Atoi seg = Some n ->
      Answer.marshal_data [seg] resp = Ok (resp ++ [n mod 256])).
  { intros seg' n resp Hne' Hat'. simpl. unfold nonempty in Hne'.
    destruct (slen seg' =? 0)%nat; [discriminate|].
    rewrite Hat'. reflexivity. }
  pose proof (marshal_rdata_values a) as Hrdata.
  unfold Answer.marshal in *. cbv zeta in *.
  match goal with
  | |- context [Answer.marshal_data ?ls ?r] =>
      destruct (marshal_data_cases ls r)
        as [(Hp & seg & Hin & Hne & Hat) | (rdata & Hok & _ & Hall)]
  end.
  - split; [|split; [|split]].
    + split; [intros _; exists seg; auto | intros _; exact Hp].
    + right. exact Hp.
    + exact Hone.
    + exact Hrdata.
  - split; [|split; [|split]].
    + split.
      * rewrite Hok. discriminate.
      * intros (seg & Hin & Hne & Hat). destruct (Hall seg Hin Hne Hat).
    + left. eexists. exact Hok.
    + exact Hone.
    + exact Hrdata.
Qed.

(** ** The RDLENGTH field of an encoded answer *)

(** An encoded answer, field by field. *)
Lemma marshal_layout (a : Answer.t) (out : list Z) :
  Answer.marshal a = Ok out ->
  exists rdata,
    out = marshal_labels (Answer.domainName a) []
          ++ [0;
              u8 (Z.shiftr (Answer.answerType a) 8);
              u8 (Z.land (Answer.answerType a) 255);
              u8 (Z.shiftr (Answer.answerClass a) 8);
              u8 (Z.land (Answer.answerClass a) 255);
              u8 (Z.shiftr (Answer.TTL a) 24);
              u8 (Z.land (Z.shiftr (Answer.TTL a) 16) 255);
              u8 (Z.land (Z.shiftr (Answer.TTL a) 8) 255);
              u8 (Z.land (Answer.TTL a) 255);
              u8 (Z.shiftr (Answer.RDLENGTH a) 8);
              u8 (Z.land (Answer.RDLENGTH a) 255)]
          ++ rdata /\
    length rdata
    = length (List.filter nonempty (Split (Answer.data a) ".")).
Proof.
  unfold Answer.marshal. cbv zeta. intros Hout.
  match type of Hout with
  | Answer.marshal_data ?ls ?r = _ =>
      destruct (marshal_data_cases ls r)
        as [(Hp & _) | (rdata & Hok & Hl & _)]
  end.
  - rewrite Hp in Hout. discriminate.
  - rewrite Hok in Hout. injection Hout as <-.
    exists rdata. split; [|exact Hl].
    rewrite <- !app_assoc. reflexivity.
Qed.

(** C3, as stated, fails: an answer with the data [8.8.8.8] and the
    field [RDLENGTH] left at zero is encoded with the RDLENGTH bytes
    [00 00] in front of four bytes of RDATA. *)
Lemma rdlength_not_recomputed :
  ~ rdlength_recomputed (Answer.mk "codecrafters.io" 1 1 60 0 "8.8.8.8").
Proof.
  intros H.
  specialize (H (codecrafters_question ++ [0; 0; 0; 60; 0; 0; 8; 8; 8; 8])
                eq_refl).
  vm_compute in H. discriminate.
Qed.

(** C3, amended. The RDLENGTH bytes of an encoded answer are the field
    [RDLENGTH] the caller supplied, and the RDATA behind them has one
    byte for each segment of the data that is not empty: the field on
    the wire is the number of RDATA bytes exactly when the caller set it
    so. *)
Theorem marshal_writes_caller_rdlength (a : Answer.t) (out : list Z) :
  is_u16 (Answer.RDLENGTH a) ->
  Answer.marshal a = Ok out ->
  wire_rdlength a out = Answer.RDLENGTH a /\
  length (wire_rdata a out)
  = length (List.filter nonempty (Split (Answer.data a) ".")).
Proof.
  intros Hu16 Hout.
  destruct (marshal_layout a out Hout) as (rdata & -> & Hl).
  unfold wire_rdlength, wire_rdata, name_size.
  set (name := marshal_labels (Answer.domainName a) []).
  replace (length name + 1 + 9)%nat with (length name + 10)%nat by lia.
  replace (length name + 1 + 8)%nat with (length name + 9)%nat by lia.
  replace (length name + 1 + 10)%nat with (length name + 11)%nat by lia.
  rewrite !app_nth2_plus, drop_app_add. cbn [nth app drop].
  split; [apply u16_bytes, Hu16 | exact Hl].
Qed.

Lemma marshal_writes_caller_rdlength_witness :
  wire_rdlength (Answer.mk "codecrafters.io" 1 1 60 4 "8.8.8.8")
    codecrafters_answer = 4 /\
  length (wire_rdata (Answer.mk "codecrafters.io" 1 1 60 4 "8.8.8.8")
            codecrafters_answer)
  = length (List.filter nonempty (Split "8.8.8.8" ".")).
Proof.
  apply (marshal_writes_caller_rdlength
           (Answer.mk "codecrafters.io" 1 1 60 4 "8.8.8.8")
           codecrafters_answer).
  - unfold is_u16. simpl. lia.
  - reflexivity.
Defined.

(** ** Decoding an encoded name *)

Lemma at_index_middle (pre post sp : list Z) (x : Z) (i : nat) :
  i = length pre -> at_index (mkSlice (pre ++ x :: post) sp) i = Ok x.
Proof.
  intros ->. unfold at_index. simpl.
  now rewrite list_lookup_middle.
Qed.

(** A window on the middle of a buffer. *)
Lemma reslice_mid (pre mid post sp : list Z) (lo hi : nat) :
  lo = length pre -> hi = (lo + length mid)%nat ->
  reslice (mkSlice (pre ++ mid ++ post) sp) lo hi
  = Ok (mkSlice mid (post ++ sp)).
Proof.
  intros -> ->. unfold reslice, cap. simpl.
  rewrite <- !app_assoc.
  destruct (Nat.leb_spec (length pre) (length pre + length mid)); [|lia].
  destruct (Nat.leb_spec (length pre + length mid)
              (length (pre ++ mid ++ post ++ sp))) as [_|Hlt];
    [|rewrite !length_app in Hlt; lia].
  simpl. f_equal. f_equal.
  - rewrite drop_app_length.
    replace (length pre + length mid - length pre)%nat with (length mid)
      by lia.
    apply take_app_length.
  - rewrite (app_assoc pre mid). apply drop_app_length'.
    now rewrite length_app.
Qed.

(** One iteration of the loop over the labels, on a label of 1 to 255
    bytes. *)
Lemma name_loop_label (fuel : nat) (pre post sp : list Z) (label : string)
  (name : string) :
  (1 <= slen label <= 255)%nat ->
  name_loop (S fuel)
    (mkSlice (pre ++ (Z.of_nat (slen label) :: bytes_of_string label) ++ post)
       sp)
    (length pre) name
  = name_loop fuel
      (mkSlice
         (pre ++ (Z.of_nat (slen label) :: bytes_of_string label) ++ post) sp)
      (length pre + slen label + 1)
      ((if (length pre =? 0)%nat then name else name ++ ".") ++ label)%string.
Proof.
  intros Hlen. cbn [name_loop].
  destruct (Nat.ltb_spec (length pre)
              (len (mkSlice (pre ++ (Z.of_nat (slen label)
                                       :: bytes_of_string label) ++ post) sp)))
    as [_|Hge];
    [|unfold len in Hge; simpl in Hge; rewrite length_app in Hge;
      simpl in Hge; lia].
  cbn [app]. rewrite at_index_middle by reflexivity. cbn [bind].
  destruct (Z.eqb_spec (Z.of_nat (slen label)) 0); [lia|].
  rewrite Nat2Z.id.
  change (pre ++ Z.of_nat (slen label) :: bytes_of_string label ++ post)
    with (pre ++ [Z.of_nat (slen label)] ++ bytes_of_string label ++ post).
  rewrite (app_assoc pre [Z.of_nat (slen label)]).
  rewrite (reslice_mid (pre ++ [Z.of_nat (slen label)])
             (bytes_of_string label) post sp);
    [| rewrite length_app; reflexivity
     | rewrite bytes_of_string_length; lia].
  cbn [bind vis]. rewrite string_of_bytes_of_string. reflexivity.
Qed.

(** The last iteration: the zero byte that ends the name. *)
Lemma name_loop_end (fuel : nat) (pre post sp : list Z) (name : string) :
  name_loop (S fuel) (mkSlice (pre ++ 0 :: post) sp) (length pre) name
  = Ok (length pre, name).
Proof.
  cbn [name_loop].
  destruct (Nat.ltb_spec (length pre) (len (mkSlice (pre ++ 0 :: post) sp)))
    as [_|Hge];
    [|unfold len in Hge; simpl in Hge; rewrite length_app in Hge;
      simpl in Hge; lia].
  rewrite at_index_middle by reflexivity. reflexivity.
Qed.

(** The loop over the labels, started behind a first label, on the wire
    form of a sequence of labels: it stops at the zero byte and has added
    every label, behind a dot, to the name. *)
Lemma name_loop_labels (labels : list string) :
  forall (fuel : nat) (pre post sp : list Z) (name : string),
    forallb byte_label labels = true ->
    (length labels < fuel)%nat -> pre <> [] ->
    name_loop fuel (mkSlice (pre ++ length_prefixed labels ++ 0 :: post) sp)
      (length pre) name
    = Ok ((length pre + length (length_prefixed labels))%nat,
          (name ++ dotted labels)%string).
Proof.
  induction labels as [|label labels IH];
    intros fuel pre post sp name Hls Hfuel Hpre.
  - destruct fuel as [|fuel]; [simpl in Hfuel; lia|].
    cbn [length_prefixed flat_map app]. rewrite name_loop_end.
    cbn [dotted fold_right length]. now rewrite append_empty_r, Nat.add_0_r.
  - destruct fuel as [|fuel]; [simpl in Hfuel; lia|].
    simpl in Hls. rewrite andb_true_iff in Hls. destruct Hls as [Hl Hls].
    assert (Hlen : (1 <= slen label <= 255)%nat).
    { unfold byte_label in Hl. rewrite !andb_true_iff in Hl.
      destruct Hl as [[_ H1] H2].
      apply Nat.leb_le in H1. apply Nat.leb_le in H2. lia. }
    change (length_prefixed (label :: labels))
      with ((Z.of_nat (slen label) :: bytes_of_string label)
            ++ length_prefixed labels).
    rewrite <- app_assoc.
    rewrite name_loop_label by exact Hlen.
    destruct (Nat.eqb_spec (length pre) 0) as [H0|_];
      [destruct pre; [contradiction | discriminate]|].
    rewrite (app_assoc pre).
    replace (length pre + slen label + 1)%nat
      with (length (pre ++ Z.of_nat (slen label) :: bytes_of_string label))
      by (rewrite length_app; simpl; rewrite bytes_of_string_length; lia).
    rewrite IH; [| exact Hls | simpl in Hfuel; lia
                 | destruct pre; discriminate].
    f_equal. f_equal.
    + rewrite !length_app. lia.
    + cbn [dotted fold_right]. rewrite !append_assoc. reflexivity.
Qed.

(** The loop over the labels on the wire form of a whole name: it stops
    at the zero byte and returns the labels joined by dots. *)
Lemma name_loop_joined (labels : list string) (fuel : nat)
  (post sp : list Z) :
  forallb byte_label labels = true ->
  (length labels < fuel)%nat ->
  name_loop fuel (mkSlice (length_prefixed labels ++ 0 :: post) sp) 0 ""
  = Ok (length (length_prefixed labels), String.concat "." labels).
Proof.
  intros Hls Hfuel.
  destruct fuel as [|fuel]; [lia|].
  destruct labels as [|label labels].
  - exact (name_loop_end fuel [] post sp "").
  - simpl in Hls. rewrite andb_true_iff in Hls. destruct Hls as [Hl Hls].
    assert (Hlen : (1 <= slen label <= 255)%nat).
    { unfold byte_label in Hl. rewrite !andb_true_iff in Hl.
      destruct Hl as [[_ H1] H2].
      apply Nat.leb_le in H1. apply Nat.leb_le in H2. lia. }
    change (length_prefixed (label :: labels))
      with ((Z.of_nat (slen label) :: bytes_of_string label)
            ++ length_prefixed labels).
    rewrite <- app_assoc.
    pose proof (name_loop_label fuel [] (length_prefixed labels ++ 0 :: post)
                  sp label "" Hlen) as Hstep.
    cbn [app length Nat.eqb] in Hstep. cbn [app]. rewrite Hstep. clear Hstep.
    pose proof (name_loop_labels labels fuel
                  (Z.of_nat (slen label) :: bytes_of_string label)
                  post sp ("" ++ label)%string Hls) as Hrest.
    cbn [app length] in Hrest. rewrite bytes_of_string_length in Hrest.
    replace (0 + slen label + 1)%nat with (S (slen label)) by lia.
    rewrite Hrest; [| simpl in Hfuel; lia | discriminate].
    rewrite concat_dotted. f_equal. f_equal.
    cbn [length]. rewrite length_app, bytes_of_string_length. lia.
Qed.

Lemma valid_labels_byte (labels : list string) :
  forallb valid_label labels = true -> forallb byte_label labels = true.
Proof.
  induction labels as [|label labels IH]; simpl; [reflexivity|].
  rewrite !andb_true_iff. intros [Hl Hls]. split; [|auto].
  unfold valid_label in Hl. unfold byte_label.
  rewrite !andb_true_iff in *. destruct Hl as [[Hd H1] H2].
  repeat split; [exact Hd | exact H1 |].
  apply Nat.leb_le in H2. apply Nat.leb_le. lia.
Qed.

(** Every label takes at least its length byte. *)
Lemma length_prefixed_labels (labels : list string) :
  (length labels <= length (length_prefixed labels))%nat.
Proof.
  induction labels as [|label labels IH]; simpl; [lia|].
  rewrite length_app. lia.
Qed.

(** ** Question round trip *)

(** C8. For every question whose name is made of labels of 1 to 63
    bytes without dot, joined by dots, and whatever lies behind the
    encoded bytes in the buffer, decoding the encoded question returns
    the question, a nil error, and the length of the encoding as the
    number of bytes read: the bytes of the name with its zero byte, and
    4. *)
Theorem question_round_trip (labels : list string) (qtype qclass : Z)
  (sp : list Z) :
  forallb valid_label labels = true -> is_u16 qtype -> is_u16 qclass ->
  let question := Question.mk (String.concat "." labels) qtype qclass in
  unmarshalQuestion (mkSlice (Question.marshal question) sp)
  = Ok (question, length (Question.marshal question), None)
  /\
  length (Question.marshal question)
  = (length (length_prefixed labels) + 1 + 4)%nat.
Proof.
  intros Hvalid Hqt Hqc question.
  pose proof (valid_labels_byte labels Hvalid) as Hls.
  pose proof (Question_marshal_joined labels qtype qclass Hls) as Henc.
  fold question in Henc. rewrite Henc.
  assert (Hsize :
    length (length_prefixed labels
            ++ [0; u8 (Z.shiftr qtype 8); u8 (Z.land qtype 255);
                u8 (Z.shiftr qclass 8); u8 (Z.land qclass 255)])
    = (length (length_prefixed labels) + 1 + 4)%nat)
    by (rewrite length_app; simpl; lia).
  split; [|exact Hsize].
  unfold unmarshalQuestion.
  rewrite name_loop_joined;
    [| exact Hls
     | pose proof (length_prefixed_labels labels); unfold len; simpl;
       rewrite Hsize; lia].
  rewrite Hsize. clear Hsize.
  set (name := length_prefixed labels).
  cbn [bind].
  change (name ++ [0; u8 (Z.shiftr qtype 8); u8 (Z.land qtype 255);
                   u8 (Z.shiftr qclass 8); u8 (Z.land qclass 255)])
    with (name ++ [0] ++ [u8 (Z.shiftr qtype 8); u8 (Z.land qtype 255)]
               ++ [u8 (Z.shiftr qclass 8); u8 (Z.land qclass 255)]) at 1 2.
  rewrite (app_assoc name [0]).
  rewrite (reslice_mid (name ++ [0]));
    [| rewrite length_app; reflexivity | simpl; lia].
  cbn [bind].
  change (Uint16 (mkSlice [u8 (Z.shiftr qtype 8); u8 (Z.land qtype 255)]
                    ([u8 (Z.shiftr qclass 8); u8 (Z.land qclass 255)] ++ sp)))
    with (Ok (Z.lor (u8 (Z.land qtype 255))
                    (u16 (Z.shiftl (u8 (Z.shiftr qtype 8)) 8)))).
  cbn [bind]. rewrite u16_bytes by exact Hqt.
  rewrite (app_assoc (name ++ [0])), <- (app_nil_r [_; u8 (Z.land qclass 255)]).
  rewrite (reslice_mid ((name ++ [0]) ++ _));
    [| rewrite !length_app; simpl; lia | simpl; lia].
  cbn [bind].
  change (Uint16 (mkSlice [u8 (Z.shiftr qclass 8); u8 (Z.land qclass 255)]
                    ([] ++ sp)))
    with (Ok (Z.lor (u8 (Z.land qclass 255))
                    (u16 (Z.shiftl (u8 (Z.shiftr qclass 8)) 8)))).
  cbn [bind]. rewrite u16_bytes by exact Hqc.
  reflexivity.
Qed.

Lemma question_round_trip_witness :
  unmarshalQuestion
    (mkSlice (Question.marshal
                (Question.mk (String.concat "." ["codecrafters"; "io"]) 1 1))
       [0; 0; 0; 60])
  = Ok (Question.mk (String.concat "." ["codecrafters"; "io"]) 1 1,
        length (Question.marshal
                  (Question.mk (String.concat "." ["codecrafters"; "io"]) 1 1)),
        None)
  /\
  length (Question.marshal
            (Question.mk (String.concat "." ["codecrafters"; "io"]) 1 1))
  = (length (length_prefixed ["codecrafters"; "io"]) + 1 + 4)%nat.
Proof.
  apply (question_round_trip ["codecrafters"; "io"] 1 1 [0; 0; 0; 60]).
  - reflexivity.
  - unfold is_u16. lia.
  - unfold is_u16. lia.
Defined.

(** * Further properties *)

(** ** The header on the wire *)

(** The 12 bytes of an encoded header. *)
Lemma Header_marshal_bytes (id qr opcode aa tc rd ra z rcode qd an ns ar : Z) :
  Header.marshal (Header.mk id qr opcode aa tc rd ra z rcode qd an ns ar)
  = [u8 (Z.shiftr id 8); u8 (Z.land id 255);
     Z.lor (Z.lor (Z.lor (Z.lor (u8 (Z.shiftl qr 7)) (u8 (Z.shiftl opcode 3)))
                         (u8 (Z.shiftl aa 2))) (u8 (Z.shiftl tc 1))) rd;
     Z.lor (Z.lor (u8 (Z.shiftl ra 7)) (u8 (Z.shiftl z 4))) rcode;
     u8 (Z.shiftr qd 8); u8 (Z.land qd 255);
     u8 (Z.shiftr an 8); u8 (Z.land an 255);
     u8 (Z.shiftr ns 8); u8 (Z.land ns 255);
     u8 (Z.shiftr ar 8); u8 (Z.land ar 255)].
Proof. reflexivity. Qed.

(** Decoding a buffer that starts with an encoded header. *)
Lemma unmarshalHeader_marshal_app (h : Header.t) (rest sp : list Z) :
  Header.ok h ->
  unmarshalHeader (mkSlice (Header.marshal h ++ rest) sp)
  = Ok (Header.set_RCODE 0 (Header.set_Z (Header.RCODE h) h), None).
Proof.
  destruct h as [id qr opcode aa tc rd ra z rcode qd an ns ar].
  intros Hok. unfold Header.ok in Hok. simpl in Hok.
  destruct Hok as (Hid & Hqr & Hop & Haa & Htc & Hrd & Hra & Hz & Hrc
                   & Hqd & Han & Hns & Har).
  rewrite Header_marshal_bytes. cbn [app].
  rewrite unmarshalHeader_bytes.
  destruct (flags_byte2 qr opcode aa tc rd Hqr Hop Haa Htc Hrd)
    as (-> & -> & -> & -> & ->).
  destruct (flags_byte3 ra z rcode Hra Hz Hrc) as (-> & _ & ->).
  rewrite !u16_bytes by assumption.
  reflexivity.
Qed.

(** Two [uint16] with the same two bytes are equal. *)
Lemma u16_bytes_inj (x y : Z) :
  is_u16 x -> is_u16 y ->
  u8 (Z.shiftr x 8) = u8 (Z.shiftr y 8) ->
  u8 (Z.land x 255) = u8 (Z.land y 255) -> x = y.
Proof.
  intros Hx Hy Hhi Hlo.
  rewrite <- (u16_bytes x Hx), <- (u16_bytes y Hy), Hhi, Hlo. reflexivity.
Qed.

(** X1. The encoding of every header, within its bit widths or not, has
    12 bytes; and two headers within their bit widths that have the same
    encoding are equal: no field is lost or mixed with another one on the
    wire. *)
Theorem Header_marshal_injective (h1 h2 : Header.t) :
  length (Header.marshal h1) = 12%nat /\
  (Header.ok h1 -> Header.ok h2 ->
   Header.marshal h1 = Header.marshal h2 -> h1 = h2).
Proof.
  split; [destruct h1; reflexivity|]. intros H1 H2 Heq.
  destruct h1 as [id qr opcode aa tc rd ra z rcode qd an ns ar].
  destruct h2 as [id' qr' opcode' aa' tc' rd' ra' z' rcode' qd' an' ns' ar'].
  unfold Header.ok in H1, H2. simpl in H1, H2.
  destruct H1 as (Hid & Hqr & Hop & Haa & Htc & Hrd & Hra & Hz & Hrc
                  & Hqd & Han & Hns & Har).
  destruct H2 as (Hid' & Hqr' & Hop' & Haa' & Htc' & Hrd' & Hra' & Hz' & Hrc'
                  & Hqd' & Han' & Hns' & Har').
  rewrite !Header_marshal_bytes in Heq.
  injection Heq as E0 E1 E2 E3 E4 E5 E6 E7 E8 E9 E10 E11.
  pose proof (flags_byte2 qr opcode aa tc rd Hqr Hop Haa Htc Hrd) as F2.
  pose proof (flags_byte2 qr' opcode' aa' tc' rd' Hqr' Hop' Haa' Htc' Hrd')
    as F2'.
  pose proof (flags_byte3 ra z rcode Hra Hz Hrc) as F3.
  pose proof (flags_byte3 ra' z' rcode' Hra' Hz' Hrc') as F3'.
  cbv zeta in F2, F2', F3, F3'. rewrite E2 in F2. rewrite E3 in F3.
  destruct F2 as (Q1 & Q2 & Q3 & Q4 & Q5).
  destruct F2' as (Q1' & Q2' & Q3' & Q4' & Q5').
  destruct F3 as (R1 & R2 & R3). destruct F3' as (R1' & R2' & R3').
  rewrite (u16_bytes_inj id id'), (u16_bytes_inj qd qd'),
    (u16_bytes_inj an an'), (u16_bytes_inj ns ns'), (u16_bytes_inj ar ar')
    by assumption.
  congruence.
Qed.

Lemma Header_marshal_injective_witness :
  length (Header.marshal notimp_header) = 12%nat /\
  notimp_header = Header.mk 1234 1 1 0 0 1 0 0 4 0 0 0 0.
Proof.
  destruct (Header_marshal_injective notimp_header
              (Header.mk 1234 1 1 0 0 1 0 0 4 0 0 0 0)) as [Hlen Hinj].
  split; [exact Hlen|]. apply Hinj.
  - unfold Header.ok, is_u16, notimp_header. simpl. lia.
  - unfold Header.ok, is_u16. simpl. lia.
  - reflexivity.
Defined.

(** X2. A header within its bit widths whose fields [Z] and [RCODE] are
    zero (every query, and every reply to a standard query) comes back
    from its encoding, whatever follows the 12 bytes in the buffer. *)
Theorem header_round_trip_without_rcode (h : Header.t) (rest sp : list Z) :
  Header.ok h -> Header.Z_ h = 0 -> Header.RCODE h = 0 ->
  unmarshalHeader (mkSlice (Header.marshal h ++ rest) sp) = Ok (h, None).
Proof.
  intros Hok Hz Hrc. rewrite unmarshalHeader_marshal_app by exact Hok.
  destruct h. simpl in Hz, Hrc. subst. reflexivity.
Qed.

Lemma header_round_trip_without_rcode_witness :
  unmarshalHeader
    (mkSlice (Header.marshal (Header.mk 1234 1 0 0 0 1 0 0 0 1 1 0 0)
              ++ codecrafters_question) [0; 0])
  = Ok (Header.mk 1234 1 0 0 0 1 0 0 0 1 1 0 0, None).
Proof.
  apply (header_round_trip_without_rcode
           (Header.mk 1234 1 0 0 0 1 0 0 0 1 1 0 0) codecrafters_question
           [0; 0]).
  - unfold Header.ok, is_u16. simpl. lia.
  - reflexivity.
  - reflexivity.
Defined.



(** ** Names with empty segments *)

Lemma Split_trailing_dot (s : string) :
  Split (s ++ ".") "." = Split s "." ++ [""].
Proof.
  induction s as [|c s IH]; [reflexivity|].
  simpl. rewrite IH.
  destruct (Ascii.eqb c "."); [reflexivity|].
  destruct (Split s ".") eqn:E; [destruct (Split_not_nil _ _ E)|].
  reflexivity.
Qed.

(** The segments between the dots have no dot. *)
Lemma Split_segments_no_dot (s : string) :
  forallb no_dot (Split s ".") = true.
Proof.
  induction s as [|c s IH]; [reflexivity|].
  simpl. destruct (Ascii.eqb c ".") eqn:Ec; [exact IH|].
  destruct (Split s ".") as [|hd tl] eqn:E; [destruct (Split_not_nil _ _ E)|].
  simpl in IH |- *. rewrite andb_true_iff in IH. destruct IH as [Hhd Htl].
  rewrite Htl, andb_true_r.
  unfold no_dot in Hhd |- *. simpl. rewrite Ec, Hhd. reflexivity.
Qed.

Lemma marshal_labels_leading_dot (name : string) (resp : list Z) :
  marshal_labels (String "." name) resp = marshal_labels name resp.
Proof. reflexivity. Qed.

Lemma marshal_labels_trailing_dot (name : string) (resp : list Z) :
  marshal_labels (name ++ ".") resp = marshal_labels name resp.
Proof.
  unfold marshal_labels. rewrite Split_trailing_dot, fold_left_app.
  reflexivity.
Qed.

(** X4. A dot in front of a name and a dot behind it (the root of a
    fully qualified name) leave no trace in the encoding of a question or
    of an answer. *)
Theorem marshal_ignores_outer_dots (name : string) (q : Question.t)
  (a : Answer.t) :
  Question.domainName q = name -> Answer.domainName a = name ->
  Question.marshal
    (Question.mk ("." ++ name ++ ".") (Question.questionType q)
       (Question.questionClass q))
  = Question.marshal q
  /\
  Answer.marshal
    (Answer.mk ("." ++ name ++ ".") (Answer.answerType a)
       (Answer.answerClass a) (Answer.TTL a) (Answer.RDLENGTH a)
       (Answer.data a))
  = Answer.marshal a.
Proof.
  intros Hq Ha. destruct q as [qn qt qc]. destruct a as [an t c ttl rl d].
  simpl in Hq, Ha. subst qn an.
  unfold Question.marshal, Answer.marshal. cbv zeta.
  cbn [Question.domainName Question.questionType Question.questionClass
       Answer.domainName Answer.answerType Answer.answerClass Answer.TTL
       Answer.RDLENGTH Answer.data].
  change ("." ++ name ++ ".")%string with (String "." (name ++ ".")).
  rewrite marshal_labels_leading_dot, marshal_labels_trailing_dot.
  split; reflexivity.
Qed.

Lemma marshal_ignores_outer_dots_witness :
  Question.marshal (Question.mk ("." ++ "codecrafters.io" ++ ".") 1 1)
  = Question.marshal (Question.mk "codecrafters.io" 1 1)
  /\
  Answer.marshal
    (Answer.mk ("." ++ "codecrafters.io" ++ ".") 1 1 60 4 "8.8.8.8")
  = Answer.marshal (Answer.mk "codecrafters.io" 1 1 60 4 "8.8.8.8").
Proof.
  apply (marshal_ignores_outer_dots "codecrafters.io"
           (Question.mk "codecrafters.io" 1 1)
           (Answer.mk "codecrafters.io" 1 1 60 4 "8.8.8.8"));
    reflexivity.
Defined.

(** ** Decoding a question, in general *)

(** The decoder on the wire form of a question made of labels of 1 to
    255 bytes. *)
Lemma unmarshalQuestion_wire (labels : list string) (qtype qclass : Z)
  (sp : list Z) :
  forallb byte_label labels = true -> is_u16 qtype -> is_u16 qclass ->
  unmarshalQuestion
    (mkSlice (length_prefixed labels
              ++ [0; u8 (Z.shiftr qtype 8); u8 (Z.land qtype 255);
                  u8 (Z.shiftr qclass 8); u8 (Z.land qclass 255)]) sp)
  = Ok (Question.mk (String.concat "." labels) qtype qclass,
        (length (length_prefixed labels) + 1 + 4)%nat, None).
Proof.
  intros Hls Hqt Hqc.
  assert (Hsize :
    length (length_prefixed labels
            ++ [0; u8 (Z.shiftr qtype 8); u8 (Z.land qtype 255);
                u8 (Z.shiftr qclass 8); u8 (Z.land qclass 255)])
    = (length (length_prefixed labels) + 1 + 4)%nat)
    by (rewrite length_app; simpl; lia).
  unfold unmarshalQuestion.
  rewrite name_loop_joined;
    [| exact Hls
     | pose proof (length_prefixed_labels labels); unfold len; simpl;
       rewrite Hsize; lia].
  clear Hsize.
  set (name := length_prefixed labels).
  cbn [bind].
  change (name ++ [0; u8 (Z.shiftr qtype 8); u8 (Z.land qtype 255);
                   u8 (Z.shiftr qclass 8); u8 (Z.land qclass 255)])
    with (name ++ [0] ++ [u8 (Z.shiftr qtype 8); u8 (Z.land qtype 255)]
               ++ [u8 (Z.shiftr qclass 8); u8 (Z.land qclass 255)]).
  rewrite (app_assoc name [0]).
  rewrite (reslice_mid (name ++ [0]));
    [| rewrite length_app; reflexivity | simpl; lia].
  cbn [bind].
  change (Uint16 (mkSlice [u8 (Z.shiftr qtype 8); u8 (Z.land qtype 255)]
                    ([u8 (Z.shiftr qclass 8); u8 (Z.land qclass 255)] ++ sp)))
    with (Ok (Z.lor (u8 (Z.land qtype 255))
                    (u16 (Z.shiftl (u8 (Z.shiftr qtype 8)) 8)))).
  cbn [bind]. rewrite u16_bytes by exact Hqt.
  rewrite (app_assoc (name ++ [0])), <- (app_nil_r [_; u8 (Z.land qclass 255)]).
  rewrite (reslice_mid ((name ++ [0]) ++ _));
    [| rewrite !length_app; simpl; lia | simpl; lia].
  cbn [bind].
  change (Uint16 (mkSlice [u8 (Z.shiftr qclass 8); u8 (Z.land qclass 255)]
                    ([] ++ sp)))
    with (Ok (Z.lor (u8 (Z.land qclass 255))
                    (u16 (Z.shiftl (u8 (Z.shiftr qclass 8)) 8)))).
  cbn [bind]. rewrite u16_bytes by exact Hqc.
  reflexivity.
Qed.

(** The segments of a name that are not empty are labels, when none has
    more than 255 bytes. *)
Lemma segments_byte_labels (segments : list string) :
  forallb no_dot segments = true ->
  forallb (fun seg => (slen seg <=? 255)%nat) segments = true ->
  forallb byte_label (List.filter nonempty segments) = true.
Proof.
  induction segments as [|seg segments IH]; [reflexivity|].
  simpl. rewrite !andb_true_iff. intros [Hd Hds] [Hl Hls].
  destruct (nonempty seg) eqn:Hne; [|auto].
  cbn [forallb]. rewrite (IH Hds Hls), andb_true_r.
  unfold byte_label. rewrite Hd, Hl, andb_true_r. cbn [andb].
  unfold nonempty in Hne. apply Nat.leb_le.
  destruct (Nat.eqb_spec (slen seg) 0); [discriminate | lia].
Qed.

(** X5. For every name whose segments have at most 255 bytes, decoding
    the encoded question returns the question with its name normalised
    (the segments that are not empty, joined by single dots), a nil error
    and the length of the encoding: the round trip holds for labels of up
    to 255 bytes, and leading, trailing and doubled dots are lost. *)
Theorem question_round_trip_normalises (name : string) (qtype qclass : Z)
  (sp : list Z) :
  forallb (fun seg => (slen seg <=? 255)%nat) (Split name ".") = true ->
  is_u16 qtype -> is_u16 qclass ->
  unmarshalQuestion
    (mkSlice (Question.marshal (Question.mk name qtype qclass)) sp)
  = Ok (Question.mk
          (String.concat "." (List.filter nonempty (Split name ".")))
          qtype qclass,
        length (Question.marshal (Question.mk name qtype qclass)), None).
Proof.
  intros Hlen Hqt Hqc.
  pose proof (segments_byte_labels _ (Split_segments_no_dot name) Hlen)
    as Hls.
  assert (Henc :
    Question.marshal (Question.mk name qtype qclass)
    = length_prefixed (List.filter nonempty (Split name "."))
      ++ [0; u8 (Z.shiftr qtype 8); u8 (Z.land qtype 255);
          u8 (Z.shiftr qclass 8); u8 (Z.land qclass 255)]).
  { unfold Question.marshal. cbv zeta.
    cbn [Question.domainName Question.questionType Question.questionClass].
    rewrite marshal_labels_encode, encode_byte_labels by exact Hls.
    cbn [app]. rewrite <- !app_assoc. reflexivity. }
  rewrite Henc, unmarshalQuestion_wire by assumption.
  rewrite length_app. cbn [length]. do 3 f_equal. lia.
Qed.

Lemma question_round_trip_normalises_witness :
  unmarshalQuestion
    (mkSlice (Question.marshal (Question.mk ".codecrafters..io." 1 1)) [])
  = Ok (Question.mk
          (String.concat "."
             (List.filter nonempty (Split ".codecrafters..io." ".")))
          1 1,
        length (Question.marshal (Question.mk ".codecrafters..io." 1 1)),
        None).
Proof.
  apply (question_round_trip_normalises ".codecrafters..io." 1 1 []).
  - reflexivity.
  - unfold is_u16. lia.
  - unfold is_u16. lia.
Defined.

(** ** What the decoders read, and when they panic *)

(** A window that was granted lies within the capacity, and has the
    length that was asked for. *)
Lemma reslice_Ok (s s' : slice) (lo hi : nat) :
  reslice s lo hi = Ok s' ->
  (lo <= hi)%nat /\ (hi <= cap s)%nat /\ len s' = (hi - lo)%nat.
Proof.
  unfold reslice, cap.
  destruct (Nat.leb_spec lo hi); [|discriminate].
  destruct (Nat.leb_spec hi (length (vis s ++ spare s))); [|discriminate].
  simpl. intros [= <-]. unfold len. simpl.
  rewrite length_take, length_drop. lia.
Qed.

Lemma reslice_Panic (s : slice) (lo hi : nat) (p : panic) :
  reslice s lo hi = Panic p -> p = SliceBoundsOutOfRange.
Proof.
  unfold reslice. destruct (_ && _); [discriminate|]. now intros [= <-].
Qed.

Lemma at_index_Ok (s : slice) (i : nat) :
  (i < len s)%nat -> exists b, at_index s i = Ok b.
Proof.
  intros Hi. unfold at_index.
  destruct (lookup_lt_is_Some_2 (vis s) i Hi) as [b ->]. eauto.
Qed.

Lemma at_index_Ok_lt (s : slice) (i : nat) (b : Z) :
  at_index s i = Ok b -> (i < len s)%nat.
Proof.
  unfold at_index. destruct (vis s !! i) eqn:E; [|discriminate].
  intros _. eapply lookup_lt_Some, E.
Qed.

(** A window of two bytes holds a [uint16], one of four a [uint32]. *)
Lemma Uint16_Ok (s : slice) : len s = 2%nat -> exists v, Uint16 s = Ok v.
Proof.
  intros Hl. unfold Uint16.
  destruct (at_index_Ok s 0) as [b0 E0]; [lia|].
  destruct (at_index_Ok s 1) as [b1 E1]; [lia|].
  rewrite E1, E0. cbn [bind]. eauto.
Qed.

Lemma Uint32_Ok (s : slice) : len s = 4%nat -> exists v, Uint32 s = Ok v.
Proof.
  intros Hl. unfold Uint32.
  destruct (at_index_Ok s 0) as [b0 E0]; [lia|].
  destruct (at_index_Ok s 1) as [b1 E1]; [lia|].
  destruct (at_index_Ok s 2) as [b2 E2]; [lia|].
  destruct (at_index_Ok s 3) as [b3 E3]; [lia|].
  rewrite E3, E0, E1, E2. cbn [bind]. eauto.
Qed.

(** The loop over the labels stops within the capacity, or panics on the
    bounds of a label. *)
Lemma name_loop_outcome (fuel : nat) (data : slice) (index : nat)
  (name : string) :
  (0 < fuel)%nat -> (len data < index + fuel)%nat ->
  (index <= cap data)%nat ->
  name_loop fuel data index name = Panic SliceBoundsOutOfRange \/
  exists i name',
    name_loop fuel data index name = Ok (i, name') /\
    (index <= i <= cap data)%nat.
Proof.
  revert index name.
  induction fuel as [|fuel IH]; intros index name Hpos Hlen Hcap; [lia|].
  cbn [name_loop].
  destruct (Nat.ltb_spec index (len data)) as [Hlt|Hge];
    [|right; eauto].
  destruct (at_index_Ok data index Hlt) as [b ->]. cbn [bind].
  destruct (b =? 0); [right; eauto|].
  destruct (reslice data (index + 1) (index + Z.to_nat b + 1))
    as [label|p|] eqn:El; cbn [bind].
  - apply reslice_Ok in El. destruct El as (_ & Hhi & _).
    destruct (IH (index + Z.to_nat b + 1)%nat
                (((if (index =? 0)%nat then name else name ++ ".")
                  ++ string_of_bytes (vis label))%string))
      as [Hp | (i & name' & Hok & Hi)]; [lia | lia | lia | |].
    + left. exact Hp.
    + right. exists i, name'. split; [exact Hok | lia].
  - left. now rewrite (reslice_Panic _ _ _ _ El).
  - destruct (reslice_fuel _ _ _ El).
Qed.

(** The outcomes of [unmarshalQuestion]. *)
Lemma unmarshalQuestion_outcome (data : slice) :
  unmarshalQuestion data = Panic SliceBoundsOutOfRange \/
  exists q n,
    unmarshalQuestion data = Ok (q, n, None) /\ (5 <= n <= cap data)%nat.
Proof.
  unfold unmarshalQuestion.
  destruct (name_loop_outcome (S (len data)) data 0 "")
    as [-> | (i & name & -> & Hi)]; [lia | lia | lia | left; reflexivity|].
  cbn [bind].
  destruct (reslice data (i + 1) (i + 1 + 2)) as [s1|p|] eqn:E1; cbn [bind];
    [| left; now rewrite (reslice_Panic _ _ _ _ E1)
     | destruct (reslice_fuel _ _ _ E1)].
  apply reslice_Ok in E1. destruct E1 as (_ & _ & Hl1).
  destruct (Uint16_Ok s1) as [v1 ->]; [lia|]. cbn [bind].
  destruct (reslice data (i + 1 + 2) (i + 1 + 4)) as [s2|p|] eqn:E2;
    cbn [bind];
    [| left; now rewrite (reslice_Panic _ _ _ _ E2)
     | destruct (reslice_fuel _ _ _ E2)].
  apply reslice_Ok in E2. destruct E2 as (_ & Hc2 & Hl2).
  destruct (Uint16_Ok s2) as [v2 ->]; [lia|]. cbn [bind].
  right. eexists. eexists. split; [reflexivity | lia].
Qed.

(** X6. When [unmarshalQuestion] returns, the number of bytes it reports
    is at least 5 and at most the capacity of the slice (which can be
    more than its length). *)
Theorem unmarshalQuestion_reads_within_capacity (data : slice)
  (q : Question.t) (n : nat) (err : option error) :
  unmarshalQuestion data = Ok (q, n, err) -> (5 <= n <= cap data)%nat.
Proof.
  intros H.
  destruct (unmarshalQuestion_outcome data) as [Hp | (q' & n' & Hok & Hn)].
  - rewrite Hp in H. discriminate.
  - rewrite Hok in H. injection H as _ <- _. exact Hn.
Qed.

Lemma unmarshalQuestion_reads_within_capacity_witness :
  (5 <= 21 <= cap (full codecrafters_question))%nat.
Proof.
  apply (unmarshalQuestion_reads_within_capacity
           (full codecrafters_question)
           (Question.mk "codecrafters.io" 1 1) 21 None).
  reflexivity.
Defined.

(** X7. The only panic of [unmarshalQuestion] is the slice-bounds fault,
    and it is the outcome for every slice of capacity less than 5, the
    empty one included. *)
Theorem unmarshalQuestion_short_buffer (data : slice) :
  (forall p, unmarshalQuestion data = Panic p -> p = SliceBoundsOutOfRange)
  /\
  ((cap data < 5)%nat ->
   unmarshalQuestion data = Panic SliceBoundsOutOfRange).
Proof.
  destruct (unmarshalQuestion_outcome data) as [Hp | (q & n & Hok & Hn)].
  - split; [|auto]. intros p H. rewrite Hp in H. now injection H as <-.
  - split; [intros p H; rewrite Hok in H; discriminate | lia].
Qed.

(** The loop over the RDATA reads below the length of the slice, or
    panics on an index. *)
Lemma data_loop_outcome (count : nat) (data : slice) (i stop : nat)
  (s : string) :
  data_loop count data i stop s = Panic IndexOutOfRange \/
  exists r,
    data_loop count data i stop s = Ok r /\
    (count = 0%nat \/ (i + count <= len data)%nat).
Proof.
  revert i s. induction count as [|count IH]; intros i s.
  - right. exists s. auto.
  - cbn [data_loop].
    destruct (at_index data i) as [b|p|] eqn:Eb; cbn [bind];
      [| left; unfold at_index in Eb; destruct (vis data !! i);
         [discriminate | now injection Eb as <-]
       | destruct (at_index_fuel _ _ Eb)].
    apply at_index_Ok_lt in Eb.
    match goal with
    | |- context [data_loop count data ?i' stop ?s'] =>
        destruct (IH i' s') as [Hp | (r & Hok & Hb)]
    end.
    + left. exact Hp.
    + right. exists r. split; [exact Hok | right; lia].
Qed.

(** The outcomes of [unmarshalAnswer]. *)
Lemma unmarshalAnswer_outcome (data : slice) :
  unmarshalAnswer data = Panic SliceBoundsOutOfRange \/
  (unmarshalAnswer data = Panic IndexOutOfRange /\ (11 <= cap data)%nat) \/
  exists a n,
    unmarshalAnswer data = Ok (a, n, None) /\
    (11 + Z.to_nat (Answer.RDLENGTH a) <= n <= cap data)%nat /\
    (0 < Answer.RDLENGTH a -> (n <= len data)%nat).
Proof.
  unfold unmarshalAnswer.
  destruct (name_loop_outcome (S (len data)) data 0 "")
    as [-> | (i & name & -> & Hi)]; [lia | lia | lia | left; reflexivity|].
  cbn [bind].
  destruct (reslice data (i + 1) (i + 1 + 2)) as [s1|p|] eqn:E1; cbn [bind];
    [| left; now rewrite (reslice_Panic _ _ _ _ E1)
     | destruct (reslice_fuel _ _ _ E1)].
  apply reslice_Ok in E1. destruct E1 as (_ & _ & Hl1).
  destruct (Uint16_Ok s1) as [v1 ->]; [lia|]. cbn [bind].
  destruct (reslice data (i + 1 + 2) (i + 1 + 4)) as [s2|p|] eqn:E2;
    cbn [bind];
    [| left; now rewrite (reslice_Panic _ _ _ _ E2)
     | destruct (reslice_fuel _ _ _ E2)].
  apply reslice_Ok in E2. destruct E2 as (_ & _ & Hl2).
  destruct (Uint16_Ok s2) as [v2 ->]; [lia|]. cbn [bind].
  destruct (reslice data (i + 1 + 4) (i + 1 + 8)) as [s3|p|] eqn:E3;
    cbn [bind];
    [| left; now rewrite (reslice_Panic _ _ _ _ E3)
     | destruct (reslice_fuel _ _ _ E3)].
  apply reslice_Ok in E3. destruct E3 as (_ & _ & Hl3).
  destruct (Uint32_Ok s3) as [v3 ->]; [lia|]. cbn [bind].
  destruct (reslice data (i + 1 + 8) (i + 1 + 10)) as [s4|p|] eqn:E4;
    cbn [bind];
    [| left; now rewrite (reslice_Panic _ _ _ _ E4)
     | destruct (reslice_fuel _ _ _ E4)].
  apply reslice_Ok in E4. destruct E4 as (_ & Hc4 & Hl4).
  destruct (Uint16_Ok s4) as [v4 ->]; [lia|]. cbn [bind].
  destruct (data_loop_outcome (Z.to_nat v4) data (i + 1 + 10)
              (i + 1 + 10 + Z.to_nat v4) "")
    as [-> | (r & -> & Hb)]; cbn [bind].
  - right. left. split; [reflexivity | lia].
  - right. right. eexists. eexists. split; [reflexivity|].
    assert (Hlc : (len data <= cap data)%nat)
      by (unfold len, cap; rewrite length_app; lia).
    simpl. split; lia.
Qed.

(** X8. When [unmarshalAnswer] returns, the number of bytes it reports
    counts at least the 11 bytes of an empty name and the fixed fields,
    and the RDATA; it is at most the capacity of the slice, and at most
    its length when there is RDATA. *)
Theorem unmarshalAnswer_reads_within_capacity (data : slice)
  (a : Answer.t) (n : nat) (err : option error) :
  unmarshalAnswer data = Ok (a, n, err) ->
  (11 + Z.to_nat (Answer.RDLENGTH a) <= n <= cap data)%nat /\
  (0 < Answer.RDLENGTH a -> (n <= len data)%nat).
Proof.
  intros H.
  destruct (unmarshalAnswer_outcome data)
    as [Hp | [[Hp _] | (a' & n' & Hok & Hn)]].
  - rewrite Hp in H. discriminate.
  - rewrite Hp in H. discriminate.
  - rewrite Hok in H. injection H as <- <- _. exact Hn.
Qed.

Lemma unmarshalAnswer_reads_within_capacity_witness :
  (11 + Z.to_nat 4 <= 31 <= cap (full codecrafters_answer))%nat /\
  (0 < 4 -> (31 <= len (full codecrafters_answer))%nat).
Proof.
  apply (unmarshalAnswer_reads_within_capacity
           (full codecrafters_answer)
           (Answer.mk "codecrafters.io" 1 1 60 4 "8.8.8.8") 31 None).
  reflexivity.
Defined.

(** X9. On every slice of capacity less than 11, the empty one included,
    [unmarshalAnswer] panics with the slice-bounds fault. *)
Theorem unmarshalAnswer_short_buffer (data : slice) :
  (cap data < 11)%nat ->
  unmarshalAnswer data = Panic SliceBoundsOutOfRange.
Proof.
  intros Hcap.
  destruct (unmarshalAnswer_outcome data)
    as [Hp | [[_ Hc] | (a & n & _ & Hn & _)]]; [exact Hp | lia | lia].
Qed.

Lemma unmarshalAnswer_short_buffer_witness :
  unmarshalAnswer (full [0; 0; 1; 0; 1; 0; 0; 0; 60; 0])
  = Panic SliceBoundsOutOfRange.
Proof.
  apply (unmarshalAnswer_short_buffer (full [0; 0; 1; 0; 1; 0; 0; 0; 60; 0])).
  unfold cap. simpl. lia.
Defined.

(** ** Answer round trip *)

(** The four bytes of a [uint32], put together again. *)
Lemma u32_bytes (x : Z) :
  is_u32 x ->
  Z.lor (Z.lor (Z.lor (u8 (Z.land x 255))
                      (u32 (Z.shiftl (u8 (Z.land (Z.shiftr x 8) 255)) 8)))
               (u32 (Z.shiftl (u8 (Z.land (Z.shiftr x 16) 255)) 16)))
        (u32 (Z.shiftl (u8 (Z.shiftr x 24)) 24)) = x.
Proof.
  unfold is_u32. intros Hx. unfold u8, u32.
  apply Z.bits_inj'. intros n Hn.
  assert (Hhigh : 32 <= n -> Z.testbit x n = false).
  { intros H32. rewrite <- (Z.mod_small x (2 ^ 32)) by lia.
    apply Z.mod_pow2_bits_high. lia. }
  change 255 with (Z.ones 8).
  repeat first
    [ rewrite Z.lor_spec | rewrite Z.land_spec
    | rewrite Z.testbit_mod_pow2 by lia
    | rewrite Z.shiftl_spec by lia
    | rewrite Z.shiftr_spec by lia
    | rewrite Z.testbit_ones by lia ].
  destruct (Z.ltb_spec n 8); destruct (Z.ltb_spec n 32);
  destruct (Z.leb_spec 0 (n - 8)); destruct (Z.ltb_spec (n - 8) 8);
  destruct (Z.leb_spec 0 (n - 16)); destruct (Z.ltb_spec (n - 16) 8);
  destruct (Z.leb_spec 0 (n - 24)); destruct (Z.ltb_spec (n - 24) 8);
  destruct (Z.leb_spec 0 n);
  try lia; cbn [andb orb];
  rewrite ?(Z.testbit_neg_r _ (n - 8)), ?(Z.testbit_neg_r _ (n - 16)),
    ?(Z.testbit_neg_r _ (n - 24)) by lia;
  rewrite ?Z.shiftr_spec by lia;
  rewrite ?andb_true_r, ?andb_false_r, ?orb_false_r, ?orb_false_l;
  try reflexivity;
  try (f_equal; lia);
  try (symmetry; apply Hhigh; lia).
Qed.

(** The decimal number of a byte: it has no dot, it is not empty, and
    [Atoi] reads the byte back. *)
Lemma byte_decimal (b : Z) :
  0 <= b <= 255 ->
  no_dot (Itoa b) = true /\ nonempty (Itoa b) = true /\
  Atoi (Itoa b) = Some b.
Proof.
  intros Hb.
  assert (Hall :
    all_upto 255 (fun b =>
      no_dot (Itoa b) && nonempty (Itoa b)
      && match Atoi (Itoa b) with Some v => v =? b | None => false end)
    = true) by (vm_compute; reflexivity).
  pose proof (all_upto_spec _ _ Hall b Hb) as H. cbv beta in H.
  rewrite !andb_true_iff in H. destruct H as [[H1 H2] H3].
  repeat split; [exact H1 | exact H2 |].
  destruct (Atoi (Itoa b)) as [v|]; [|discriminate].
  apply Z.eqb_eq in H3. now subst.
Qed.

Lemma valid_bytes_cons (b : Z) (bs : list Z) :
  valid_bytes (b :: bs) = true -> 0 <= b <= 255 /\ valid_bytes bs = true.
Proof.
  unfold valid_bytes. simpl. rewrite !andb_true_iff.
  intros [[H1 H2] H3]. split; [lia | exact H3].
Qed.

(** The encoder on the decimal numbers of a list of bytes. *)
Lemma marshal_data_decimals (bs : list Z) (resp : list Z) :
  valid_bytes bs = true ->
  Answer.marshal_data (map Itoa bs) resp = Ok (resp ++ bs).
Proof.
  revert resp. induction bs as [|b bs IH]; intros resp Hbs.
  - simpl. now rewrite app_nil_r.
  - apply valid_bytes_cons in Hbs. destruct Hbs as [Hb Hbs].
    destruct (byte_decimal b Hb) as (_ & Hne & Hat).
    cbn [map Answer.marshal_data]. unfold nonempty in Hne.
    destruct (slen (Itoa b) =? 0)%nat; [discriminate|].
    rewrite Hat, IH by exact Hbs.
    unfold u8. rewrite Z.mod_small by lia.
    now rewrite <- app_assoc.
Qed.

Lemma decimals_no_dot (bs : list Z) :
  valid_bytes bs = true -> forallb no_dot (map Itoa bs) = true.
Proof.
  induction bs as [|b bs IH]; intros Hbs; [reflexivity|].
  apply valid_bytes_cons in Hbs. destruct Hbs as [Hb Hbs].
  destruct (byte_decimal b Hb) as (Hd & _ & _).
  simpl. now rewrite Hd, IH.
Qed.

(** The encoder on the dotted decimal form of a list of bytes. *)
Lemma marshal_data_dotted_decimal (bs : list Z) (resp : list Z) :
  valid_bytes bs = true ->
  Answer.marshal_data (Split (dotted_decimal bs) ".") resp = Ok (resp ++ bs).
Proof.
  intros Hbs. unfold dotted_decimal.
  destruct bs as [|b bs].
  - simpl. now rewrite app_nil_r.
  - rewrite Split_concat;
      [| discriminate | apply decimals_no_dot, Hbs].
    apply marshal_data_decimals, Hbs.
Qed.

(** The loop over the RDATA renders the bytes at the end of the buffer
    in dotted decimal form. *)
Lemma data_loop_dotted_decimal (bs : list Z) :
  forall (v pre sp : list Z) (i stop : nat) (s : string),
    v = pre ++ bs -> i = length pre -> stop = (i + length bs)%nat ->
    data_loop (length bs) (mkSlice v sp) i stop s
    = Ok (s ++ dotted_decimal bs)%string.
Proof.
  induction bs as [|b bs IH]; intros v pre sp i stop s -> -> ->.
  - simpl. now rewrite append_empty_r.
  - cbn [length data_loop].
    rewrite at_index_middle by reflexivity. cbn [bind].
    destruct bs as [|b' bs].
    + match goal with
      | |- context [(?x <? ?y)%nat] => destruct (Nat.ltb_spec x y)
      end; [simpl in *; lia|].
      reflexivity.
    + match goal with
      | |- context [(?x <? ?y)%nat] => destruct (Nat.ltb_spec x y)
      end; [|simpl in *; lia].
      rewrite (IH _ (pre ++ [b]));
        [| now rewrite <- app_assoc
         | rewrite length_app; reflexivity
         | simpl; lia].
      unfold dotted_decimal.
      change (String.concat "." (map Itoa (b :: b' :: bs)))
        with (Itoa b ++ String "." (String.concat "." (map Itoa (b' :: bs))))
               %string.
      rewrite !append_assoc. reflexivity.
Qed.

(** A window on the middle of a buffer, given how the buffer is made. *)
Lemma reslice_mid_eq (v pre mid post sp : list Z) (lo hi : nat) :
  v = pre ++ mid ++ post -> lo = length pre -> hi = (lo + length mid)%nat ->
  reslice (mkSlice v sp) lo hi = Ok (mkSlice mid (post ++ sp)).
Proof. intros ->. apply reslice_mid. Qed.

(** An answer whose name is made of labels of 1 to 255 bytes and whose
    data is the dotted decimal form of a list of bytes, on the wire. *)
Lemma Answer_marshal_wire (labels : list string) (t c ttl rl : Z)
  (bs : list Z) :
  forallb byte_label labels = true -> valid_bytes bs = true ->
  Answer.marshal
    (Answer.mk (String.concat "." labels) t c ttl rl (dotted_decimal bs))
  = Ok (length_prefixed labels ++ [0]
        ++ [u8 (Z.shiftr t 8); u8 (Z.land t 255)]
        ++ [u8 (Z.shiftr c 8); u8 (Z.land c 255)]
        ++ [u8 (Z.shiftr ttl 24); u8 (Z.land (Z.shiftr ttl 16) 255);
            u8 (Z.land (Z.shiftr ttl 8) 255); u8 (Z.land ttl 255)]
        ++ [u8 (Z.shiftr rl 8); u8 (Z.land rl 255)]
        ++ bs).
Proof.
  intros Hls Hbs. unfold Answer.marshal. cbv zeta.
  cbn [Answer.domainName Answer.answerType Answer.answerClass Answer.TTL
       Answer.RDLENGTH Answer.data].
  rewrite marshal_labels_joined by exact Hls.
  rewrite marshal_data_dotted_decimal by exact Hbs.
  cbn [app]. rewrite <- !app_assoc. reflexivity.
Qed.

(** The decoder on the wire form of such an answer. *)
Lemma unmarshalAnswer_wire (labels : list string) (t c ttl : Z)
  (bs sp : list Z) :
  forallb byte_label labels = true ->
  is_u16 t -> is_u16 c -> is_u32 ttl ->
  Z.of_nat (length bs) < 65536 ->
  unmarshalAnswer
    (mkSlice (length_prefixed labels ++ [0]
              ++ [u8 (Z.shiftr t 8); u8 (Z.land t 255)]
              ++ [u8 (Z.shiftr c 8); u8 (Z.land c 255)]
              ++ [u8 (Z.shiftr ttl 24); u8 (Z.land (Z.shiftr ttl 16) 255);
                  u8 (Z.land (Z.shiftr ttl 8) 255); u8 (Z.land ttl 255)]
              ++ [u8 (Z.shiftr (Z.of_nat (length bs)) 8);
                  u8 (Z.land (Z.of_nat (length bs)) 255)]
              ++ bs) sp)
  = Ok (Answer.mk (String.concat "." labels) t c ttl
          (Z.of_nat (length bs)) (dotted_decimal bs),
        (length (length_prefixed labels) + 11 + length bs)%nat, None).
Proof.
  intros Hls Ht Hc Httl Hbs.
  set (name := length_prefixed labels).
  set (T := [u8 (Z.shiftr t 8); u8 (Z.land t 255)]).
  set (C := [u8 (Z.shiftr c 8); u8 (Z.land c 255)]).
  set (L := [u8 (Z.shiftr ttl 24); u8 (Z.land (Z.shiftr ttl 16) 255);
             u8 (Z.land (Z.shiftr ttl 8) 255); u8 (Z.land ttl 255)]).
  set (R := [u8 (Z.shiftr (Z.of_nat (length bs)) 8);
             u8 (Z.land (Z.of_nat (length bs)) 255)]).
  set (v := name ++ [0] ++ T ++ C ++ L ++ R ++ bs).
  assert (Hv : length v = (length name + 11 + length bs)%nat)
    by (unfold v; rewrite !length_app; simpl; lia).
  unfold unmarshalAnswer.
  assert (Hloop :
    name_loop (S (len (mkSlice v sp))) (mkSlice v sp) 0 ""
    = Ok (length name, String.concat "." labels)).
  { unfold v, name. apply name_loop_joined; [exact Hls|].
    pose proof (length_prefixed_labels labels) as Hle. fold name in Hle.
    change (length labels < S (length v))%nat.
    rewrite Hv. lia. }
  rewrite Hloop. cbn [bind].
  rewrite (reslice_mid_eq v (name ++ [0]) T (C ++ L ++ R ++ bs));
    [| unfold v; now rewrite <- !app_assoc
     | rewrite length_app; reflexivity | simpl; lia].
  cbn [bind].
  change (Uint16 (mkSlice T ((C ++ L ++ R ++ bs) ++ sp)))
    with (Ok (Z.lor (u8 (Z.land t 255)) (u16 (Z.shiftl (u8 (Z.shiftr t 8)) 8)))).
  cbn [bind]. rewrite u16_bytes by exact Ht.
  rewrite (reslice_mid_eq v (name ++ [0] ++ T) C (L ++ R ++ bs));
    [| unfold v; now rewrite <- !app_assoc
     | rewrite !length_app; simpl; lia | simpl; lia].
  cbn [bind].
  change (Uint16 (mkSlice C ((L ++ R ++ bs) ++ sp)))
    with (Ok (Z.lor (u8 (Z.land c 255)) (u16 (Z.shiftl (u8 (Z.shiftr c 8)) 8)))).
  cbn [bind]. rewrite u16_bytes by exact Hc.
  rewrite (reslice_mid_eq v (name ++ [0] ++ T ++ C) L (R ++ bs));
    [| unfold v; now rewrite <- !app_assoc
     | rewrite !length_app; simpl; lia | simpl; lia].
  cbn [bind].
  change (Uint32 (mkSlice L ((R ++ bs) ++ sp)))
    with (Ok (Z.lor
                (Z.lor
                   (Z.lor (u8 (Z.land ttl 255))
                      (u32 (Z.shiftl (u8 (Z.land (Z.shiftr ttl 8) 255)) 8)))
                   (u32 (Z.shiftl (u8 (Z.land (Z.shiftr ttl 16) 255)) 16)))
                (u32 (Z.shiftl (u8 (Z.shiftr ttl 24)) 24)))).
  cbn [bind]. rewrite u32_bytes by exact Httl.
  rewrite (reslice_mid_eq v (name ++ [0] ++ T ++ C ++ L) R bs);
    [| unfold v; now rewrite <- !app_assoc
     | rewrite !length_app; simpl; lia | simpl; lia].
  cbn [bind].
  change (Uint16 (mkSlice R (bs ++ sp)))
    with (Ok (Z.lor (u8 (Z.land (Z.of_nat (length bs)) 255))
                    (u16 (Z.shiftl (u8 (Z.shiftr (Z.of_nat (length bs)) 8))
                            8)))).
  cbn [bind]. rewrite u16_bytes by (unfold is_u16; lia).
  rewrite Nat2Z.id.
  rewrite (data_loop_dotted_decimal bs v (name ++ [0] ++ T ++ C ++ L ++ R));
    [| unfold v; now rewrite <- !app_assoc
     | rewrite !length_app; simpl; lia
     | lia].
  cbn [bind]. do 3 f_equal. lia.
Qed.

(** X10. An answer whose name is made of labels of 1 to 255 bytes
    without dot, whose data is the dotted decimal form of its RDATA bytes
    and whose [RDLENGTH] is their number comes back from its encoding,
    with a nil error and the length of the encoding as the number of
    bytes read: the bytes of the name, 11, and the RDATA. *)
Theorem answer_round_trip (labels : list string) (t c ttl : Z)
  (bs sp : list Z) :
  forallb byte_label labels = true ->
  is_u16 t -> is_u16 c -> is_u32 ttl ->
  valid_bytes bs = true -> Z.of_nat (length bs) < 65536 ->
  let a :=
    Answer.mk (String.concat "." labels) t c ttl (Z.of_nat (length bs))
      (dotted_decimal bs) in
  exists out,
    Answer.marshal a = Ok out /\
    unmarshalAnswer (mkSlice out sp) = Ok (a, length out, None) /\
    length out = (length (length_prefixed labels) + 11 + length bs)%nat.
Proof.
  intros Hls Ht Hc Httl Hbs Hlen a. unfold a.
  eexists. split; [apply Answer_marshal_wire; assumption|].
  rewrite unmarshalAnswer_wire by assumption.
  assert (Hsize :
    length (length_prefixed labels ++ [0]
            ++ [u8 (Z.shiftr t 8); u8 (Z.land t 255)]
            ++ [u8 (Z.shiftr c 8); u8 (Z.land c 255)]
            ++ [u8 (Z.shiftr ttl 24); u8 (Z.land (Z.shiftr ttl 16) 255);
                u8 (Z.land (Z.shiftr ttl 8) 255); u8 (Z.land ttl 255)]
            ++ [u8 (Z.shiftr (Z.of_nat (length bs)) 8);
                u8 (Z.land (Z.of_nat (length bs)) 255)]
            ++ bs)
    = (length (length_prefixed labels) + 11 + length bs)%nat)
    by (rewrite !length_app; simpl; lia).
  rewrite Hsize. split; reflexivity.
Qed.

Lemma answer_round_trip_witness :
  exists out,
    Answer.marshal
      (Answer.mk (String.concat "." ["codecrafters"; "io"]) 1 1 60
         (Z.of_nat (length [8; 8; 4; 4])) (dotted_decimal [8; 8; 4; 4]))
    = Ok out /\
    unmarshalAnswer (mkSlice out [])
    = Ok (Answer.mk (String.concat "." ["codecrafters"; "io"]) 1 1 60
            (Z.of_nat (length [8; 8; 4; 4])) (dotted_decimal [8; 8; 4; 4]),
          length out, None) /\
    length out
    = (length (length_prefixed ["codecrafters"; "io"]) + 11
       + length [8; 8; 4; 4])%nat.
Proof.
  apply (answer_round_trip ["codecrafters"; "io"] 1 1 60 [8; 8; 4; 4] []).
  - reflexivity.
  - unfold is_u16. lia.
  - unfold is_u16. lia.
  - unfold is_u32. lia.
  - reflexivity.
  - simpl. lia.
Defined.

(** ** Building a message *)






(** ** One iteration of the server *)

(** The header decoder returns on every buffer. *)
Lemma unmarshalHeader_returns (data : slice) :
  exists h err, unmarshalHeader data = Ok (h, err).
Proof.
  destruct (Nat.ltb_spec (len data) 12) as [Hlt|Hge].
  - exists Header.zero, (Some header_size_error). unfold unmarshalHeader.
    destruct (Nat.ltb_spec (len data) 12); [reflexivity | lia].
  - destruct data as [v sp]. unfold len in Hge. simpl in Hge.
    destruct (twelve_bytes v Hge)
      as (b0 & b1 & b2 & b3 & b4 & b5 & b6 & b7 & b8 & b9 & b10 & b11
          & rest & ->).
    eexists. eexists. apply unmarshalHeader_bytes.
Qed.

(** The reply of the server is encoded without failure, whatever the
    query was. *)
Lemma build_main_response (h : Header.t) (q : Question.t) :
  exists reply, DNSResponse.build (main_response h q) = Ok reply.
Proof.
  unfold DNSResponse.build, main_response. cbv zeta.
  cbn [DNSResponse.header DNSResponse.question DNSResponse.answer
       DNSResponse.marshal_answers].
  unfold Answer.marshal. cbv zeta. cbn [Answer.data].
  rewrite marshal_data_prefix.
  change (Answer.marshal_data (Split "8.8.8.8" ".") [])
    with (Ok (A:=list Z) [8; 8; 8; 8]).
  cbn [bind]. eauto.
Qed.

(** X12. A datagram of fewer than 12 bytes is not refused through the
    error of [unmarshalHeader], which is overwritten: the iteration goes
    on to [recivedData[12:]] and panics with the slice-bounds fault. *)
Theorem main_iteration_short_datagram (buffer : list Z) (size : nat) :
  (size < 12)%nat ->
  main_iteration buffer size = Panic SliceBoundsOutOfRange.
Proof.
  intros Hsize. unfold main_iteration.
  destruct (reslice (full buffer) 0 size) as [recivedData|p|] eqn:E1;
    cbn [bind];
    [| now rewrite (reslice_Panic _ _ _ _ E1)
     | destruct (reslice_fuel _ _ _ E1)].
  apply reslice_Ok in E1. destruct E1 as (_ & _ & Hlen).
  unfold unmarshalHeader.
  destruct (Nat.ltb_spec (len recivedData) 12); [|lia].
  cbn [bind]. unfold reslice_from, reslice.
  destruct (Nat.leb_spec 12 (len recivedData)); [lia|]. reflexivity.
Qed.

Lemma main_iteration_short_datagram_witness :
  main_iteration (buffer_with [4; 210; 1; 0] 0) 4
  = Panic SliceBoundsOutOfRange.
Proof.
  apply (main_iteration_short_datagram (buffer_with [4; 210; 1; 0] 0) 4).
  lia.
Defined.

(** X13. An iteration of the server sends a reply or panics on a bound
    (of a slice or of an index): it never ends the process through
    [log.Fatal], whose test of the decode error never holds, and it never
    fails to encode its reply. *)
Theorem main_iteration_outcomes (buffer : list Z) (size : nat) :
  (exists reply, main_iteration buffer size = Ok (Sent reply)) \/
  main_iteration buffer size = Panic SliceBoundsOutOfRange \/
  main_iteration buffer size = Panic IndexOutOfRange.
Proof.
  unfold main_iteration.
  destruct (reslice (full buffer) 0 size) as [recivedData|p|] eqn:E1;
    cbn [bind];
    [| right; left; now rewrite (reslice_Panic _ _ _ _ E1)
     | destruct (reslice_fuel _ _ _ E1)].
  destruct (unmarshalHeader_returns recivedData) as (h & err & ->).
  cbn [bind].
  destruct (reslice_from recivedData 12) as [s|p|] eqn:E2; cbn [bind];
    [| right; left; now rewrite (reslice_Panic _ _ _ _ E2)
     | destruct (reslice_fuel _ _ _ E2)].
  destruct (unmarshalQuestion_outcome s) as [-> | (q & n & -> & _)];
    cbn [bind]; [right; left; reflexivity|].
  destruct (reslice_from recivedData (12 + n)) as [s'|p|] eqn:E3;
    cbn [bind];
    [| right; left; now rewrite (reslice_Panic _ _ _ _ E3)
     | destruct (reslice_fuel _ _ _ E3)].
  destruct (unmarshalAnswer_outcome s')
    as [-> | [[-> _] | (a & n' & -> & _)]]; cbn [bind];
    [right; left; reflexivity | right; right; reflexivity |].
  destruct (build_main_response h q) as [reply ->]. cbn [bind].
  left. eauto.
Qed.

(** The bytes of the reply to a query whose name is made of labels of 1
    to 255 bytes. *)
Lemma build_main_response_wire (h : Header.t) (labels : list string)
  (qtype qclass : Z) :
  forallb byte_label labels = true ->
  DNSResponse.build
    (main_response h (Question.mk (String.concat "." labels) qtype qclass))
  = Ok (Header.marshal
          (Header.mk (Header.ID h) 1 (Header.OPCODE h) 0 0 (Header.RD h) 0 0
             (if Header.OPCODE h =? 0 then 0 else 4) 1 1 0 0)
        ++ (length_prefixed labels ++ [0; 0; 1; 0; 1])
        ++ (length_prefixed labels
            ++ [0; 0; 1; 0; 1; 0; 0; 0; 60; 0; 4; 8; 8; 8; 8])).
Proof.
  intros Hls. unfold DNSResponse.build, main_response. cbv zeta.
  cbn [DNSResponse.header DNSResponse.question DNSResponse.answer
       DNSResponse.marshal_answers fold_left Question.domainName].
  change "8.8.8.8" with (dotted_decimal [8; 8; 8; 8]).
  rewrite Answer_marshal_wire by (exact Hls || reflexivity).
  rewrite Question_marshal_joined by exact Hls.
  cbn [bind]. f_equal. rewrite <- !app_assoc. f_equal.
  destruct (Header.OPCODE h =? 0); reflexivity.
Qed.

(** The decoder of answers on an empty slice that has eleven zero bytes
    behind it: an empty name, zero fields and no RDATA. *)
Lemma unmarshalAnswer_behind_datagram (rest : list Z) :
  unmarshalAnswer (mkSlice [] (replicate 11 0 ++ rest))
  = Ok (Answer.mk "" 0 0 0 0 "", 11%nat, None).
Proof. reflexivity. Qed.

(** X14. A query made of 12 header bytes and one question whose name is
    made of labels of 1 to 255 bytes, received in a buffer that holds
    eleven zero bytes behind it, is answered: the reply has the
    identifier, opcode and RD flag of the query, [QR=1], the response code
    0 for opcode 0 and 4 otherwise, one question and one answer; the
    question repeats the name with type 1 and class 1, whatever type and
    class the query asked for, and the answer gives the address 8.8.8.8
    for the name, with a TTL of 60. *)
Theorem main_iteration_answers_query (hdr : list Z) (labels : list string)
  (qtype qclass : Z) (rest : list Z) :
  length hdr = 12%nat ->
  forallb byte_label labels = true -> is_u16 qtype -> is_u16 qclass ->
  let query :=
    hdr ++ Question.marshal
             (Question.mk (String.concat "." labels) qtype qclass) in
  exists h,
    unmarshalHeader (full hdr) = Ok (h, None) /\
    main_iteration (query ++ replicate 11 0 ++ rest) (length query)
    = Ok (Sent
            (Header.marshal
               (Header.mk (Header.ID h) 1 (Header.OPCODE h) 0 0 (Header.RD h)
                  0 0 (if Header.OPCODE h =? 0 then 0 else 4) 1 1 0 0)
             ++ (length_prefixed labels ++ [0; 0; 1; 0; 1])
             ++ (length_prefixed labels
                 ++ [0; 0; 1; 0; 1; 0; 0; 0; 60; 0; 4; 8; 8; 8; 8]))).
Proof.
  intros Hhdr Hls Hqt Hqc query.
  assert (Hge : (12 <= length hdr)%nat) by lia.
  destruct (twelve_bytes hdr Hge)
    as (b0 & b1 & b2 & b3 & b4 & b5 & b6 & b7 & b8 & b9 & b10 & b11
        & tl & ->).
  clear Hge. destruct tl; [|simpl in Hhdr; lia].
  set (hd := [b0; b1; b2; b3; b4; b5; b6; b7; b8; b9; b10; b11]) in *.
  set (q := Question.marshal
              (Question.mk (String.concat "." labels) qtype qclass)) in *.
  assert (Hq : length query
               = (12 + (length (length_prefixed labels) + 1 + 4))%nat).
  { unfold query, q. rewrite Question_marshal_joined by exact Hls.
    rewrite !length_app. simpl. lia. }
  eexists. split; [apply unmarshalHeader_bytes|].
  unfold main_iteration, full.
  rewrite (reslice_mid_eq _ [] query (replicate 11 0 ++ rest));
    [| reflexivity | reflexivity | reflexivity].
  cbn [bind]. rewrite app_nil_r.
  unfold query at 1. unfold hd at 1. cbn [app].
  rewrite unmarshalHeader_bytes. cbn [bind].
  unfold reslice_from.
  rewrite (reslice_mid_eq query hd q []);
    [| unfold query; now rewrite app_nil_r | reflexivity
     | unfold len, query; cbn [vis]; rewrite length_app; reflexivity].
  cbn [bind app]. unfold q at 1.
  rewrite Question_marshal_joined by exact Hls.
  rewrite unmarshalQuestion_wire by assumption.
  cbn [bind].
  rewrite (reslice_mid_eq query query [] []);
    [| now rewrite app_nil_r
     | exact (eq_sym Hq)
     | unfold len; cbn [vis]; rewrite Hq; simpl; lia].
  cbn [bind app]. rewrite unmarshalAnswer_behind_datagram.
  rewrite build_main_response_wire by exact Hls.
  reflexivity.
Qed.

Lemma main_iteration_answers_query_witness :
  exists h,
    unmarshalHeader (full [4; 210; 1; 0; 0; 1; 0; 0; 0; 0; 0; 0])
    = Ok (h, None) /\
    main_iteration
      (([4; 210; 1; 0; 0; 1; 0; 0; 0; 0; 0; 0]
        ++ Question.marshal
             (Question.mk (String.concat "." ["codecrafters"; "io"]) 28 1))
       ++ replicate 11 0 ++ [7; 7; 7])
      (length
         ([4; 210; 1; 0; 0; 1; 0; 0; 0; 0; 0; 0]
          ++ Question.marshal
               (Question.mk (String.concat "." ["codecrafters"; "io"]) 28 1)))
    = Ok (Sent
            (Header.marshal
               (Header.mk (Header.ID h) 1 (Header.OPCODE h) 0 0 (Header.RD h)
                  0 0 (if Header.OPCODE h =? 0 then 0 else 4) 1 1 0 0)
             ++ (length_prefixed ["codecrafters"; "io"] ++ [0; 0; 1; 0; 1])
             ++ (length_prefixed ["codecrafters"; "io"]
                 ++ [0; 0; 1; 0; 1; 0; 0; 0; 60; 0; 4; 8; 8; 8; 8]))).
Proof.
  apply (main_iteration_answers_query [4; 210; 1; 0; 0; 1; 0; 0; 0; 0; 0; 0]
           ["codecrafters"; "io"] 28 1 [7; 7; 7]).
  - reflexivity.
  - reflexivity.
  - unfold is_u16. lia.
  - unfold is_u16. lia.
Defined.

(** ** Encoding a decoded answer *)






(** ** The fields of a decoded header *)

Lemma be16_range (hi lo : Z) :
  0 <= hi <= 255 -> 0 <= lo <= 255 ->
  is_u16 (Z.lor lo (u16 (Z.shiftl hi 8))).
Proof.
  intros Hhi Hlo.
  assert (Hall :
    all_upto 255 (fun hi => all_upto 255 (fun lo =>
      let v := Z.lor lo (u16 (Z.shiftl hi 8)) in
      (0 <=? v) && (v <? 2 ^ 16))) = true) by (vm_compute; reflexivity).
  pose proof (all_upto_spec _ _ Hall hi Hhi) as H1. cbv beta in H1.
  pose proof (all_upto_spec _ _ H1 lo Hlo) as H2. cbv beta zeta in H2.
  rewrite andb_true_iff in H2. destruct H2 as [Ha Hb].
  unfold is_u16. split; [now apply Z.leb_le | now apply Z.ltb_lt].
Qed.

Lemma flag_bits_range (b : Z) :
  0 <= b <= 255 ->
  0 <= Z.shiftr b 7 <= 1 /\ 0 <= Z.land (Z.shiftr b 3) 15 <= 15 /\
  0 <= Z.land (Z.shiftr b 2) 1 <= 1 /\ 0 <= Z.land (Z.shiftr b 1) 1 <= 1 /\
  0 <= Z.land b 1 <= 1 /\ 0 <= Z.land b 15 <= 15.
Proof.
  intros Hb.
  assert (Hall :
    all_upto 255 (fun b =>
      let in_range v n := (0 <=? v) && (v <=? n) in
      in_range (Z.shiftr b 7) 1 && in_range (Z.land (Z.shiftr b 3) 15) 15
      && in_range (Z.land (Z.shiftr b 2) 1) 1
      && in_range (Z.land (Z.shiftr b 1) 1) 1
      && in_range (Z.land b 1) 1 && in_range (Z.land b 15) 15) = true)
    by (vm_compute; reflexivity).
  pose proof (all_upto_spec _ _ Hall b Hb) as H. cbv beta zeta in H.
  rewrite !andb_true_iff, !Z.leb_le in H. lia.
Qed.

(** X16. The header decoded from a buffer of bytes has its identifier
    and counts within 16 bits, [QR], [AA], [TC], [RD], [RA] within one bit
    and the opcode within four; [RCODE] is zero, and the field [Z] is the
    low four bits of byte 3 (0 to 15, beyond its three bits), [RA] being
    bit 7 of that byte. *)
Theorem unmarshalHeader_fields_range (data : slice) (h : Header.t) :
  valid_bytes (vis data) = true ->
  unmarshalHeader data = Ok (h, None) ->
  is_u16 (Header.ID h) /\
  0 <= Header.QR h <= 1 /\ 0 <= Header.OPCODE h <= 15 /\
  0 <= Header.AA h <= 1 /\ 0 <= Header.TC h <= 1 /\
  0 <= Header.RD h <= 1 /\ 0 <= Header.RA h <= 1 /\
  0 <= Header.Z_ h <= 15 /\ Header.RCODE h = 0 /\
  is_u16 (Header.QDCOUNT h) /\ is_u16 (Header.ANCOUNT h) /\
  is_u16 (Header.NSCOUNT h) /\ is_u16 (Header.ARCOUNT h) /\
  exists b3 : Z,
    vis data !! 3%nat = Some b3 /\
    Header.Z_ h = Z.land b3 15 /\ Header.Z_ h = b3 mod 16 /\
    Header.RA h = Z.shiftr b3 7.
Proof.
  intros Hvalid H.
  destruct (Nat.ltb_spec (len data) 12) as [Hlt|Hge].
  - unfold unmarshalHeader in H.
    destruct (Nat.ltb_spec (len data) 12); [discriminate | lia].
  - destruct data as [v sp]. unfold len in Hge. simpl in Hge, Hvalid.
    destruct (twelve_bytes v Hge)
      as (b0 & b1 & b2 & b3 & b4 & b5 & b6 & b7 & b8 & b9 & b10 & b11
          & rest & ->).
    rewrite unmarshalHeader_bytes in H. injection H as <-.
    do 12 (apply valid_bytes_cons in Hvalid;
           destruct Hvalid as [? Hvalid]).
    cbn [Header.ID Header.QR Header.OPCODE Header.AA Header.TC Header.RD
         Header.RA Header.Z_ Header.RCODE Header.QDCOUNT Header.ANCOUNT
         Header.NSCOUNT Header.ARCOUNT].
    pose proof (flag_bits_range b2) as F2.
    pose proof (flag_bits_range b3) as F3.
    repeat match goal with
           | |- _ /\ _ => split
           end;
      try (apply be16_range; assumption); try lia.
    exists b3. split; [reflexivity|]. split; [reflexivity|].
    split; [|reflexivity].
    change 15 with (Z.ones 4). rewrite Z.land_ones by lia. reflexivity.
Qed.

Lemma unmarshalHeader_fields_range_witness :
  is_u16 1234 /\ 0 <= 1 <= 1 /\ 0 <= 0 <= 15 /\ 0 <= 0 <= 1 /\ 0 <= 0 <= 1 /\
  0 <= 1 <= 1 /\ 0 <= 1 <= 1 /\ 0 <= 3 <= 15 /\ 0 = 0 /\
  is_u16 1 /\ is_u16 0 /\ is_u16 0 /\ is_u16 0 /\
  exists b3 : Z,
    vis (full nxdomain_header) !! 3%nat = Some b3 /\
    3 = Z.land b3 15 /\ 3 = b3 mod 16 /\ 1 = Z.shiftr b3 7.
Proof.
  apply (unmarshalHeader_fields_range (full nxdomain_header)
           (Header.mk 1234 1 0 0 0 1 1 3 0 1 0 0 0)).
  - reflexivity.
  - reflexivity.
Defined.
